(** * Checkmk plugin templates: table parsing, correlation, discovery, checks

    A shallow embedding of the telemetry pipeline of the plugin templates
    (snmp_check.py, snmp_check_multitable.py, agent_check_simple.py,
    agent_check_advanced.py, active_check_executable.py, local_check.py)
    and the properties their specification states about it.

    Conventions.
    - A Python [str] is a [string]; its characters are read as the code
      points U+0000..U+00FF.
    - A Python [int] is a [Z]; a Python [float] is a primitive [float]
      (IEEE 754 binary64, as in CPython).
    - A Python [dict] is an insertion-ordered association list ([Dict.t]).
    - Code that can raise returns an [outcome]; generators (check and
      discovery functions) are computations of the [Check] monad, which
      records what was yielded before the generator returned or raised. *)

From Stdlib Require Import List String Ascii ZArith NArith Bool Lia.
From Stdlib Require Import Floats.
Import ListNotations.

Set Implicit Arguments.

Local Open Scope string_scope.
Local Open Scope Z_scope.

(* ===================================================================== *)
(** ** Python values and builtins *)
(* ===================================================================== *)

Module Py.

(** Exceptions that the modelled code can meet. *)
Inductive exn : Type :=
| ValueError
| TypeError
| OverflowError
| ZeroDivisionError
| GetRateError.

Inductive outcome (A : Type) : Type :=
| Return (a : A)
| Raise (e : exn).
Arguments Return {A} a.
Arguments Raise {A} e.

Definition bind {A B} (m : outcome A) (k : A -> outcome B) : outcome B :=
  match m with
  | Return a => k a
  | Raise e => Raise e
  end.

Definition returns {A} (m : outcome A) : bool :=
  match m with Return _ => true | Raise _ => false end.

(** [for x in xs: acc = step acc x], where the body may raise. *)
Fixpoint for_each {A S} (step : S -> A -> outcome S) (xs : list A) (acc : S)
  : outcome S :=
  match xs with
  | [] => Return acc
  | x :: rest => bind (step acc x) (for_each step rest)
  end.

(** Truthiness of a string: [if s] holds for every non-empty string. *)
Definition truthy (s : string) : bool :=
  match s with EmptyString => false | String _ _ => true end.

Definition code (c : ascii) : N := N_of_ascii c.

(** ASCII decimal digits, the only characters [int()] reads as digits in
    this range of code points. *)
Definition is_decimal (c : ascii) : bool :=
  ((48 <=? code c) && (code c <=? 57))%N.

(** [str.isdigit] also accepts the superscript digits U+00B2, U+00B3 and
    U+00B9, which [int()] rejects. *)
Definition is_digit_char (c : ascii) : bool :=
  is_decimal c
  || (code c =? 178)%N || (code c =? 179)%N || (code c =? 185)%N.

Definition isdigit (s : string) : bool :=
  truthy s && forallb is_digit_char (list_ascii_of_string s).

Definition digit_value (c : ascii) : Z := Z.of_N (code c) - 48.

(** White space skipped by [int()] around the literal: the C locale's
    space characters; U+0085 and U+00A0 are turned into a space first. *)
Definition is_space (c : ascii) : bool :=
  (((9 <=? code c) && (code c <=? 13)) || (code c =? 32)
   || (code c =? 133) || (code c =? 160))%N.

Fixpoint skip_spaces (s : list ascii) : list ascii :=
  match s with
  | c :: rest => if is_space c then skip_spaces rest else s
  | [] => []
  end.

Definition is_underscore (c : ascii) : bool := (code c =? 95)%N.

(** The digit loop of [int()]: digits, with single underscores between
    them.  Returns the value, the number of digits and what follows, or
    [None] for a doubled or trailing underscore. *)
Fixpoint scan_digits (s : list ascii) (prev_us : bool) (acc : Z) (digits : N)
  : option (Z * N * list ascii) :=
  match s with
  | c :: rest =>
      if is_decimal c
      then scan_digits rest false (10 * acc + digit_value c) (N.succ digits)
      else if is_underscore c
           then if prev_us then None else scan_digits rest true acc digits
           else if prev_us then None else Some (acc, digits, s)
  | [] => if prev_us then None else Some (acc, digits, [])
  end.

(** The interpreter's default limit on the digits of an integer literal. *)
Definition int_max_str_digits : N := 4300.

Definition read_sign (s : list ascii) : Z * list ascii :=
  match s with
  | c :: rest =>
      if (code c =? 43)%N then (1, rest)
      else if (code c =? 45)%N then (-1, rest)
      else (1, s)
  | [] => (1, [])
  end.

(** [int(s)] for a string, base ten: [None] stands for [ValueError]. *)
Definition parse_int (s : string) : option Z :=
  let (sign, body) := read_sign (skip_spaces (list_ascii_of_string s)) in
  match body with
  | c :: _ =>
      if is_underscore c then None
      else
        match scan_digits body false 0 0%N with
        | Some (v, digits, rest) =>
            if (digits =? 0)%N then None
            else if (int_max_str_digits <? digits)%N then None
            else match skip_spaces rest with
                 | [] => Some (sign * v)
                 | _ :: _ => None
                 end
        | None => None
        end
  | [] => None
  end.

Definition int (s : string) : outcome Z :=
  match parse_int s with
  | Some z => Return z
  | None => Raise ValueError
  end.

(** [int(s) if s else 0] *)
Definition int_if_nonempty (s : string) : outcome Z :=
  if truthy s then int s else Return 0.

(** [int(s) if s.isdigit() else 0] *)
Definition int_if_isdigit (s : string) : outcome Z :=
  if isdigit s then int s else Return 0.

(** [try: body  except ValueError: handler] *)
Definition except_ValueError {A} (body : outcome A) (handler : outcome A)
  : outcome A :=
  match body with
  | Raise ValueError => handler
  | other => other
  end.

(** The conversion of an [int] operand in float arithmetic: rounded to the
    nearest double, [OverflowError] beyond the range of doubles. *)
Definition float_of_int (z : Z) : outcome float :=
  let f := SF2Prim (binary_normalize prec emax z 0 false) in
  if is_infinity f then Raise OverflowError else Return f.

(** [x / z] for a float [x] and an int [z]. *)
Definition div_int (x : float) (z : Z) : outcome float :=
  if (z =? 0)%Z then Raise ZeroDivisionError
  else bind (float_of_int z) (fun d => Return (x / d)%float).

(** [f ? z] for a float and an int, which Python compares exactly: [None]
    when [f] is a NaN. *)
Definition float_cmp_int (f : float) (z : Z) : option comparison :=
  match Prim2SF f with
  | S754_nan => None
  | S754_infinity false => Some Gt
  | S754_infinity true => Some Lt
  | S754_zero _ => Some (0 ?= z)%Z
  | S754_finite s m e =>
      let mz := if s then Zneg m else Zpos m in
      Some (if (0 <=? e)%Z then (mz * 2 ^ e ?= z)%Z
            else (mz ?= z * 2 ^ (- e))%Z)
  end.

(** [f > z] and [f < z] for a float and an int. *)
Definition float_gt_int (f : float) (z : Z) : bool :=
  match float_cmp_int f z with Some Gt => true | _ => false end.

Definition float_lt_int (f : float) (z : Z) : bool :=
  match float_cmp_int f z with Some Lt => true | _ => false end.

(** A number, where the code passes either kind. *)
Inductive num : Type :=
| Int (z : Z)
| Float (f : float).

(** [max(a, b)] on floats: the first argument unless the second is
    greater. *)
Definition max (a b : float) : float :=
  if PrimFloat.ltb a b then b else a.

End Py.

Notation "x <- m ;; k" := (Py.bind m (fun x => k))
  (at level 61, m at next level, right associativity).

(* ===================================================================== *)
(** ** Insertion-ordered dictionaries with string keys *)
(* ===================================================================== *)

Module Dict.
Section Defs.
Variable V : Type.

Definition t := list (string * V).

Definition empty : t := [].

(** [d.get(k)] *)
Fixpoint get (d : t) (k : string) : option V :=
  match d with
  | [] => None
  | (k', v) :: rest => if String.eqb k' k then Some v else get rest k
  end.

(** [d[k] = v]: an existing key keeps its position, a new key goes
    last. *)
Fixpoint set (d : t) (k : string) (v : V) : t :=
  match d with
  | [] => [(k, v)]
  | (k', v') :: rest =>
      if String.eqb k' k then (k, v) :: rest else (k', v') :: set rest k v
  end.

Definition keys (d : t) : list string := map fst d.

(** Truthiness of a dict: [if d]. *)
Definition truthy (d : t) : bool :=
  match d with [] => false | _ :: _ => true end.

(** [d if d else None] *)
Definition or_none (d : t) : option t :=
  if truthy d then Some d else None.
End Defs.

Arguments empty {V}.
End Dict.

(* ===================================================================== *)
(** ** The agent-based API the templates import (cmk.agent_based.v2) *)
(* ===================================================================== *)

Module Cmk.
Import Py.

Inductive State : Type := OK | WARN | CRIT | UNKNOWN.

(** A [Result] is built with either [summary=] or [notice=]. *)
Inductive Text : Type :=
| Summary (s : string)
| Notice (s : string).

Record Result : Type := mkResult { state : State; text : Text }.

Record Metric : Type := mkMetric { metric_name : string; metric_value : float }.

(** What a check function yields. *)
Inductive Yield : Type :=
| YResult (r : Result)
| YMetric (m : Metric).

(** What a discovery function yields: [Service(item=..., parameters=...)]. *)
Record Service : Type := mkService { item : option string; parameters : Dict.t Z }.

(** The values the templates pass as levels. *)
Inductive Levels : Type :=
| NoLevels                        (* ("no_levels", None) *)
| Fixed (warn crit : float)       (* ("fixed", (warn, crit)) *)
| Bare (warn crit : float).       (* (warn, crit) *)

Inductive Render : Type :=
| RenderPercent                   (* render.percent *)
| RenderPerSecond.                (* lambda x: f"{x:.2f}/s" *)

(** The arguments of one call of [check_levels]. *)
Record LevelsCall : Type := mkLevelsCall {
  cl_value : float;
  cl_levels_upper : option Levels;
  cl_levels_lower : option Levels;
  cl_metric_name : string;
  cl_label : string;
  cl_render_func : Render;
  cl_boundaries : option (float * float)
}.

Section Generators.
(** The value store of the running check ([get_value_store()]). *)
Variable VS : Type.

(** One run of a generator: what it yielded, the value store it left, and
    how it ended. *)
Record Run (A : Type) : Type := mkRun {
  yielded : list Yield;
  store : VS;
  result : outcome A
}.

Definition Check (A : Type) : Type := VS -> Run A.

Definition ret {A} (a : A) : Check A := fun vs => mkRun [] vs (Return a).

Definition bind {A B} (m : Check A) (k : A -> Check B) : Check B :=
  fun vs =>
    let r := m vs in
    match result r with
    | Return a =>
        let r' := k a (store r) in
        mkRun (yielded r ++ yielded r') (store r') (result r')
    | Raise e => mkRun (yielded r) (store r) (Raise e)
    end.

(** [yield y] *)
Definition yield (y : Yield) : Check unit := fun vs => mkRun [y] vs (Return tt).

(** A pure computation that may raise. *)
Definition lift {A} (m : outcome A) : Check A := fun vs => mkRun [] vs m.

(** [yield from g] for a generator of the library. *)
Definition yield_from (g : list Yield * outcome unit) : Check unit :=
  fun vs => mkRun (fst g) vs (snd g).

(** [try: body  except GetRateError: handler].  What the body yielded and
    stored before it raised stays. *)
Definition except_GetRateError {A} (body handler : Check A) : Check A :=
  fun vs =>
    let r := body vs in
    match result r with
    | Raise GetRateError =>
        let h := handler (store r) in
        mkRun (yielded r ++ yielded h) (store h) (result h)
    | _ => r
    end.

(** The library functions the templates call. *)
Record Api : Type := mkApi {
  (* get_rate(value_store, key, time, value) *)
  get_rate : VS -> string -> float -> Z -> VS * outcome float;
  (* check_levels(value, levels_upper=..., ...) *)
  check_levels : LevelsCall -> list Yield * outcome unit;
  (* render.networkbandwidth *)
  networkbandwidth : num -> string
}.

Definition rate (api : Api) (key : string) (now : float) (value : Z)
  : Check float :=
  fun vs => let (vs', r) := get_rate api vs key now value in mkRun [] vs' r.

End Generators.

Arguments ret {VS A} a.
Arguments yield {VS} y.
Arguments lift {VS A} m.
Arguments yield_from {VS} g.

Definition result_ (st : State) (t : Text) : Yield := YResult (mkResult st t).
Definition metric (name : string) (value : float) : Yield :=
  YMetric (mkMetric name value).

End Cmk.

Notation "x <~ m ;; k" := (Cmk.bind m (fun x => k))
  (at level 61, m at next level, right associativity).
Notation "m ;;; k" := (Cmk.bind m (fun _ => k))
  (at level 61, right associativity).

(* ===================================================================== *)
(** ** snmp_check.py *)
(* ===================================================================== *)

Module SnmpCheck.
Import Py Cmk.

(** *** Example 1: device setup (scalar values) *)

Record DeviceSetup : Type := mkDeviceSetup {
  contact : string;
  name : string;
  location : string
}.

Definition parse_device_setup (string_table : list (list string))
  : option DeviceSetup :=
  match string_table with
  | [] => None
  | [] :: _ => None
  | row :: _ =>
      Some {| contact := nth 0 row ""; name := nth 1 row "";
              location := nth 2 row "" |}
  end.

Definition discover_device_setup (section : option DeviceSetup) : list Service :=
  match section with
  | Some _ => [mkService None Dict.empty]
  | None => []
  end.

(** *** Example 2: interface status (table) *)

Record IfStatus : Type := mkIfStatus {
  st_index : string;
  st_admin_status : Z;
  st_oper_status : Z
}.

(** The body of the loop of [parse_interface_status]. *)
Definition interface_status_row (parsed : Dict.t IfStatus) (row : list string)
  : outcome (Dict.t IfStatus) :=
  match row with
  | idx :: descr :: admin_status :: oper_status :: _ =>
      (* Skip empty descriptions *)
      if negb (truthy descr) then Return parsed
      else
        admin <- int_if_isdigit admin_status ;;
        oper <- int_if_isdigit oper_status ;;
        Return (Dict.set parsed descr (mkIfStatus idx admin oper))
  | _ => Return parsed
  end.

Definition parse_interface_status (string_table : list (list string))
  : outcome (option (Dict.t IfStatus)) :=
  match string_table with
  | [] => Return None
  | _ :: _ =>
      parsed <- for_each interface_status_row string_table Dict.empty ;;
      Return (Dict.or_none parsed)
  end.

Definition discover_interface_status (section : Dict.t IfStatus) : list Service :=
  flat_map
    (fun entry : string * IfStatus =>
       let (interface_name, data) := entry in
       if st_admin_status data =? 1
       then [mkService (Some interface_name) Dict.empty]
       else [])
    section.

(** ifOperStatus values; [oper_status_map.get(oper_status, (UNKNOWN, "invalid"))] *)
Definition oper_status_map (oper_status : Z) : State * string :=
  match oper_status with
  | 1 => (OK, "up")
  | 2 => (CRIT, "down")
  | 3 => (WARN, "testing")
  | 4 => (UNKNOWN, "unknown")
  | 5 => (WARN, "dormant")
  | 6 => (CRIT, "notPresent")
  | 7 => (CRIT, "lowerLayerDown")
  | _ => (UNKNOWN, "invalid")
  end.

(** *** Example 4: interface traffic (counters) *)

Record IfTraffic : Type := mkIfTraffic {
  tr_index : string;
  tr_in_octets : Z;
  tr_out_octets : Z
}.

(** The body of the loop of [parse_interface_traffic]. *)
Definition interface_traffic_row (parsed : Dict.t IfTraffic) (row : list string)
  : outcome (Dict.t IfTraffic) :=
  match row with
  | idx :: descr :: in_octets :: out_octets :: _ =>
      if negb (truthy descr) then Return parsed
      else
        except_ValueError
          (i <- int_if_nonempty in_octets ;;
           o <- int_if_nonempty out_octets ;;
           Return (Dict.set parsed descr (mkIfTraffic idx i o)))
          (Return parsed)
  | _ => Return parsed
  end.

Definition parse_interface_traffic (string_table : list (list string))
  : outcome (option (Dict.t IfTraffic)) :=
  match string_table with
  | [] => Return None
  | _ :: _ =>
      parsed <- for_each interface_traffic_row string_table Dict.empty ;;
      Return (Dict.or_none parsed)
  end.

Definition discover_interface_traffic (section : Dict.t IfTraffic) : list Service :=
  map (fun interface_name => mkService (Some interface_name) Dict.empty)
      (Dict.keys section).

Section Checks.
Variable VS : Type.
Variable api : Api VS.

Definition check_device_setup (section : option DeviceSetup) : Check VS unit :=
  match section with
  | None => yield (result_ UNKNOWN (Summary "No SNMP data received"))
  | Some section =>
      let missing :=
        flat_map
          (fun field : string * string =>
             if truthy (snd field) then [] else [fst field])
          [("contact", contact section); ("name", name section);
           ("location", location section)] in
      match missing with
      | _ :: _ =>
          yield (result_ WARN (Summary ("Missing: " ++ String.concat ", " missing)))
      | [] =>
          yield (result_ OK
                   (Summary ("Name: " ++ name section ++ ", Location: "
                             ++ location section)))
      end
  end.

(** The section a check with an item receives is a parsed mapping: the
    framework does not call the check when parsing returned [None]. *)
Definition check_interface_status (item : string) (section : Dict.t IfStatus)
  : Check VS unit :=
  match Dict.get section item with
  | None => yield (result_ UNKNOWN (Summary "Interface not found"))
  | Some data =>
      let oper_status := st_oper_status data in
      let admin_status := st_admin_status data in
      let (state, status_text) := oper_status_map oper_status in
      (* If admin down, don't alert on oper down *)
      let (state, status_text) :=
        if negb (admin_status =? 1)
        then (OK, status_text ++ " (admin down)")
        else (state, status_text) in
      yield (result_ state (Summary ("Operational status: " ++ status_text)))
  end.

(** [now] is the value of [time.time()] at the call. *)
Definition check_interface_traffic (item : string) (section : Dict.t IfTraffic)
  (now : float) : Check VS unit :=
  match Dict.get section item with
  | None => yield (result_ UNKNOWN (Summary "Interface not found"))
  | Some data =>
      rates <~
        except_GetRateError
          (in_rate <~ rate api ("in_octets." ++ item) now (tr_in_octets data) ;;
           out_rate <~ rate api ("out_octets." ++ item) now (tr_out_octets data) ;;
           ret (Some (in_rate, out_rate)))
          (yield (result_ OK (Summary "Collecting data...")) ;;; ret None) ;;
      match rates with
      | None => ret tt
      | Some (in_rate, out_rate) =>
          (* Convert to bits/sec for display *)
          let in_bps := (in_rate * 8)%float in
          let out_bps := (out_rate * 8)%float in
          yield (result_ OK
                   (Summary ("In: " ++ networkbandwidth api (Float in_bps)
                             ++ ", Out: " ++ networkbandwidth api (Float out_bps)))) ;;;
          yield (metric "if_in_bps" in_bps) ;;;
          yield (metric "if_out_bps" out_bps)
      end
  end.

End Checks.
End SnmpCheck.

(* ===================================================================== *)
(** ** snmp_check_multitable.py *)
(* ===================================================================== *)

Module MultiTable.
Import Py Cmk.

(** Structured interface data from multiple SNMP tables. *)
Record InterfaceData : Type := mkInterfaceData {
  index : string;
  descr : string;
  name : string;
  alias : string;
  if_type : Z;
  speed : Z;
  admin_status : Z;
  oper_status : Z;
  in_octets : Z;
  out_octets : Z;
  in_errors : Z;
  out_errors : Z
}.

Definition is_up (i : InterfaceData) : bool := oper_status i =? 1.

Definition is_admin_up (i : InterfaceData) : bool := admin_status i =? 1.

(** Best name for display: [self.name or self.alias or self.descr]. *)
Definition display_name (i : InterfaceData) : string :=
  if truthy (name i) then name i
  else if truthy (alias i) then alias i
  else descr i.

(** The parsed section, [Mapping[str, InterfaceData]]. *)
Definition Section_ : Type := Dict.t InterfaceData.

(** The values of [ifx_by_index]: [{"name": name, "alias": alias}]. *)
Record IfxData : Type := mkIfxData { ifx_name : string; ifx_alias : string }.

(** The values of [counters_by_index]. *)
Record CounterData : Type := mkCounterData {
  c_in_octets : Z;
  c_out_octets : Z;
  c_in_errors : Z;
  c_out_errors : Z
}.

(** The first loop: the lookup built from the ifXTable rows. *)
Definition ifx_row (d : Dict.t IfxData) (row : list string) : Dict.t IfxData :=
  match row with
  | idx :: name :: alias :: _ => Dict.set d idx (mkIfxData name alias)
  | _ => d
  end.

Definition ifx_by_index (ifx_table : list (list string)) : Dict.t IfxData :=
  fold_left ifx_row ifx_table Dict.empty.

(** The second loop: the lookup built from the counter rows. *)
Definition counter_row (d : Dict.t CounterData) (row : list string)
  : outcome (Dict.t CounterData) :=
  match row with
  | idx :: r1 :: r2 :: r3 :: r4 :: _ =>
      i_oct <- int_if_nonempty r1 ;;
      o_oct <- int_if_nonempty r2 ;;
      i_err <- int_if_nonempty r3 ;;
      o_err <- int_if_nonempty r4 ;;
      Return (Dict.set d idx (mkCounterData i_oct o_oct i_err o_err))
  | _ => Return d
  end.

Definition counters_by_index (if_counters : list (list string))
  : outcome (Dict.t CounterData) :=
  for_each counter_row if_counters Dict.empty.

(** [d.get(key, default)] on an optional lookup result. *)
Definition get_or {A B} (data : option A) (field : A -> B) (default : B) : B :=
  match data with
  | Some d => field d
  | None => default
  end.

(** The [InterfaceData] built from one ifTable row; [None] for a row that
    the loop skips. *)
Definition interface_of_row (ifx : Dict.t IfxData) (counters : Dict.t CounterData)
  (row : list string) : outcome (option InterfaceData) :=
  match row with
  | idx :: descr :: if_type :: speed :: admin_status :: oper_status :: _ =>
      if negb (truthy descr) then Return None
      else
        (* Get extended info (may not exist) *)
        let ifx_data := Dict.get ifx idx in
        let counter_data := Dict.get counters idx in
        ty <- int_if_isdigit if_type ;;
        sp <- int_if_isdigit speed ;;
        adm <- int_if_isdigit admin_status ;;
        op <- int_if_isdigit oper_status ;;
        Return (Some {|
          index := idx;
          descr := descr;
          name := get_or ifx_data ifx_name "";
          alias := get_or ifx_data ifx_alias "";
          if_type := ty;
          speed := sp;
          admin_status := adm;
          oper_status := op;
          in_octets := get_or counter_data c_in_octets 0;
          out_octets := get_or counter_data c_out_octets 0;
          in_errors := get_or counter_data c_in_errors 0;
          out_errors := get_or counter_data c_out_errors 0
        |})
  | _ => Return None
  end.

(** The body of the third loop: [parsed[interface.display_name] = interface]. *)
Definition merge_row (ifx : Dict.t IfxData) (counters : Dict.t CounterData)
  (parsed : Section_) (row : list string) : outcome Section_ :=
  built <- interface_of_row ifx counters row ;;
  match built with
  | Some interface => Return (Dict.set parsed (display_name interface) interface)
  | None => Return parsed
  end.

Definition parse_multi_table_interfaces (string_table : list (list (list string)))
  : outcome (option Section_) :=
  match string_table with
  | if_table :: ifx_table :: if_counters :: _ =>
      let ifx := ifx_by_index ifx_table in
      counters <- counters_by_index if_counters ;;
      parsed <- for_each (merge_row ifx counters) if_table Dict.empty ;;
      Return (Dict.or_none parsed)
  | _ => Return None
  end.

(** Only physical interfaces are discovered. *)
Definition physical_if_types : list Z := [6; 117; 62; 69; 135; 136].

Definition discover_multi_table_interfaces (section : Section_) : list Service :=
  flat_map
    (fun entry : string * InterfaceData =>
       let (name, interface) := entry in
       if existsb (Z.eqb (if_type interface)) physical_if_types
       then [mkService (Some name)
               [("discovered_speed", speed interface);
                ("discovered_oper_status", oper_status interface)]]
       else [])
    section.

(** The check parameters, [Mapping[str, Any]]: a key may be absent. *)
Record Params : Type := mkParams {
  expected_status : option Z;
  discovered_speed : option Z;
  utilization_levels : option Levels;
  error_levels : option Levels
}.

(** [params.get(key, default)] *)
Definition param {A} (value : option A) (default : A) : A :=
  match value with
  | Some v => v
  | None => default
  end.

Definition oper_status_map (oper_status : Z) : State * string :=
  match oper_status with
  | 1 => (OK, "up")
  | 2 => (CRIT, "down")
  | 3 => (WARN, "testing")
  | 4 => (UNKNOWN, "unknown")
  | 5 => (WARN, "dormant")
  | 6 => (CRIT, "notPresent")
  | 7 => (CRIT, "lowerLayerDown")
  | _ => (UNKNOWN, "invalid")
  end.

Section Checks.
Variable VS : Type.
Variable api : Api VS.

(** Status Check *)
Definition status_check (params : Params) (interface : InterfaceData)
  : Check VS unit :=
  let (state, status_text) := oper_status_map (oper_status interface) in
  (* Expected status from discovery or params *)
  let expected := param (expected_status params) 1 in
  let (state, status_text) :=
    if negb (oper_status interface =? expected) && is_admin_up interface
    then (CRIT, status_text ++ " (expected: up)")
    else if negb (is_admin_up interface)
         then (OK, status_text ++ " (admin down)")
         else (state, status_text) in
  yield (result_ state (Summary ("Status: " ++ status_text))).

(** Speed Check *)
Definition speed_check (params : Params) (interface : InterfaceData)
  : Check VS unit :=
  if 0 <? speed interface then
    let speed_text := networkbandwidth api (Int (speed interface)) in
    (* Check for speed change since discovery *)
    let discovered := param (discovered_speed params) 0 in
    if negb (discovered =? 0) && negb (speed interface =? discovered)
    then yield (result_ WARN
                  (Summary ("Speed changed: " ++ speed_text ++ " (was "
                            ++ networkbandwidth api (Int discovered) ++ ")")))
    else yield (result_ OK (Notice ("Speed: " ++ speed_text)))
  else ret tt.

(** Traffic Rates *)
Definition traffic_rates (item : string) (params : Params)
  (interface : InterfaceData) (now : float) : Check VS unit :=
  except_GetRateError
    (in_rate <~ rate api ("in_octets." ++ item) now (in_octets interface) ;;
     out_rate <~ rate api ("out_octets." ++ item) now (out_octets interface) ;;
     (* Convert to bits/sec *)
     let in_bps := (in_rate * 8)%float in
     let out_bps := (out_rate * 8)%float in
     yield (result_ OK
              (Summary ("In: " ++ networkbandwidth api (Float in_bps)
                        ++ ", Out: " ++ networkbandwidth api (Float out_bps)))) ;;;
     yield (metric "if_in_bps" in_bps) ;;;
     yield (metric "if_out_bps" out_bps) ;;;
     (* Utilization if speed known *)
     if 0 <? speed interface then
       in_q <~ lift (div_int in_bps (speed interface)) ;;
       out_q <~ lift (div_int out_bps (speed interface)) ;;
       let in_util := (in_q * 100)%float in
       let out_util := (out_q * 100)%float in
       let util_levels := param (utilization_levels params) (Bare 80 90) in
       yield_from
         (check_levels api
            {| cl_value := Py.max in_util out_util;
               cl_levels_upper := Some util_levels;
               cl_levels_lower := None;
               cl_metric_name := "if_util_percent";
               cl_label := "Utilization";
               cl_render_func := RenderPercent;
               cl_boundaries := None |})
     else ret tt)
    (yield (result_ OK (Notice "Traffic: collecting data..."))).

(** Error Rates *)
Definition error_rates (item : string) (params : Params)
  (interface : InterfaceData) (now : float) : Check VS unit :=
  except_GetRateError
    (in_err_rate <~ rate api ("in_errors." ++ item) now (in_errors interface) ;;
     out_err_rate <~ rate api ("out_errors." ++ item) now (out_errors interface) ;;
     let total_err_rate := (in_err_rate + out_err_rate)%float in
     if (0 <? total_err_rate)%float then
       let levels := param (error_levels params) (Bare 1 10) in
       yield_from
         (check_levels api
            {| cl_value := total_err_rate;
               cl_levels_upper := Some levels;
               cl_levels_lower := None;
               cl_metric_name := "if_errors_rate";
               cl_label := "Errors";
               cl_render_func := RenderPerSecond;
               cl_boundaries := None |})
     else ret tt)
    (ret tt). (* No error rate yet *)

Definition check_multi_table_interfaces (item : string) (params : Params)
  (section : Section_) (now : float) : Check VS unit :=
  match Dict.get section item with
  | None => yield (result_ UNKNOWN (Summary "Interface not found"))
  | Some interface =>
      status_check params interface ;;;
      speed_check params interface ;;;
      traffic_rates item params interface now ;;;
      error_rates item params interface now
  end.

End Checks.
End MultiTable.

(* ===================================================================== *)
(** ** agent_check_simple.py *)
(* ===================================================================== *)

Module AgentSimple.
Import Py Cmk.

(** The parsed section, [{"value": ...}]. *)
Record SimpleSection : Type := mkSimpleSection { value : option string }.

Definition parse_mycheck (string_table : list (list string))
  : option SimpleSection :=
  match string_table with
  | [] => None
  | [] :: _ => Some (mkSimpleSection None)
  | (v :: _) :: _ => Some (mkSimpleSection (Some v))
  end.

(** Discover service (single service, no item). *)
Definition discover_mycheck (section : option SimpleSection) : list Service :=
  match section with
  | Some _ => [mkService None Dict.empty]
  | None => []
  end.

Section Checks.
Variable VS : Type.

Definition check_mycheck (section : option SimpleSection) : Check VS unit :=
  match section with
  | None => yield (result_ UNKNOWN (Summary "No data"))
  | Some s =>
      match value s with
      | None => yield (result_ UNKNOWN (Summary "No data"))
      | Some v =>
          if negb (truthy v) then yield (result_ UNKNOWN (Summary "No data"))
          else yield (result_ OK (Summary ("Value: " ++ v)))
      end
  end.

End Checks.
End AgentSimple.

(* ===================================================================== *)
(** ** agent_check_advanced.py *)
(* ===================================================================== *)

Module AgentAdvanced.
Import Py Cmk.

Record ItemData : Type := mkItemData { value : float; status : string }.

Record Params : Type := mkParams {
  levels_upper : option Levels;
  levels_lower : option Levels
}.

Section Parse.
(** [float(s)] for a string: [None] stands for [ValueError]. *)
Variable parse_float : string -> option float.

Definition float_ (s : string) : outcome float :=
  match parse_float s with
  | Some f => Return f
  | None => Raise ValueError
  end.

(** The body of the loop of [parse_mycheck]. *)
Definition mycheck_line (parsed : Dict.t ItemData) (line : list string)
  : outcome (Dict.t ItemData) :=
  match line with
  | item_name :: l1 :: l2 :: _ =>
      except_ValueError
        (v <- float_ l1 ;;
         Return (Dict.set parsed item_name (mkItemData v l2)))
        (Return parsed)
  | _ => Return parsed
  end.

(** Parse agent section into dictionary keyed by item. *)
Definition parse_mycheck (string_table : list (list string))
  : outcome (option (Dict.t ItemData)) :=
  match string_table with
  | [] => Return None
  | _ :: _ =>
      parsed <- for_each mycheck_line string_table Dict.empty ;;
      Return (Dict.or_none parsed)
  end.
End Parse.

(** Discover one service per item. *)
Definition discover_mycheck (section : Dict.t ItemData) : list Service :=
  map (fun item_name => mkService (Some item_name) Dict.empty)
      (Dict.keys section).

Section Checks.
Variable VS : Type.
Variable api : Api VS.

Definition check_mycheck (item : string) (params : Params)
  (section : Dict.t ItemData) : Check VS unit :=
  match Dict.get section item with
  | None => yield (result_ UNKNOWN (Summary "Item not found in data"))
  | Some data =>
      yield_from
        (check_levels api
           {| cl_value := value data;
              cl_levels_upper := levels_upper params;
              cl_levels_lower := levels_lower params;
              cl_metric_name := "mycheck_value";
              cl_label := "Value";
              cl_render_func := RenderPercent;
              cl_boundaries := Some (0%float, 100%float) |}) ;;;
      (* Additional status information *)
      yield (result_ OK (Notice ("Reported status: " ++ status data)))
  end.

End Checks.
End AgentAdvanced.

(* ===================================================================== *)
(** ** active_check_executable.py *)
(* ===================================================================== *)

Module ActiveCheck.

(** Exit codes *)
Definition OK : Z := 0.
Definition WARNING : Z := 1.
Definition CRITICAL : Z := 2.
Definition UNKNOWN : Z := 3.

(** [a >= b] on floats. *)
Definition ge (a b : float) : bool := PrimFloat.leb b a.

(** [bound is not None and test bound] *)
Definition is_not_None_and (bound : option float) (test : float -> bool) : bool :=
  match bound with
  | Some b => test b
  | None => false
  end.

(** Check value against thresholds. *)
Definition check_thresholds (value : float) (warning critical : option float)
  (lower_is_worse : bool) : Z :=
  if lower_is_worse then
    if is_not_None_and critical (fun critical => PrimFloat.leb value critical)
    then CRITICAL
    else if is_not_None_and warning (fun warning => PrimFloat.leb value warning)
         then WARNING
         else OK
  else
    if is_not_None_and critical (fun critical => ge value critical)
    then CRITICAL
    else if is_not_None_and warning (fun warning => ge value warning)
         then WARNING
         else OK.

End ActiveCheck.

(* ===================================================================== *)
(** ** local_check.py *)
(* ===================================================================== *)

Module LocalCheck.

Definition STATUS_OK : Z := 0.
Definition STATUS_WARN : Z := 1.
Definition STATUS_CRIT : Z := 2.
Definition STATUS_UNKNOWN : Z := 3.

(** The status [check_process_count] reports for the [count] that the
    process listing gave. *)
Definition check_process_count (count min_count max_count : Z) : Z :=
  if count <? min_count then STATUS_CRIT
  else if max_count <? count then STATUS_WARN
  else STATUS_OK.

(** The status [check_backup] reports for the age and size it measured on
    the newest backup file. *)
Definition check_backup (age_hours size_mb : float) (max_age_hours min_size_mb : Z)
  : Z :=
  if Py.float_gt_int age_hours max_age_hours then STATUS_CRIT
  else if Py.float_lt_int size_mb min_size_mb then STATUS_WARN
  else STATUS_OK.

End LocalCheck.

(* ===================================================================== *)
(** ** Vocabulary of the properties *)
(* ===================================================================== *)

Module Props.
Import Py Cmk.

(** A parse result is [None] or a mapping with at least one entity (or the
    parse raised). *)
Definition none_or_nonempty {V} (r : outcome (option (Dict.t V))) : bool :=
  match r with
  | Return (Some d) => Dict.truthy d
  | Return None => true
  | Raise _ => true
  end.

(** A table has a row of at least [min_cols] columns whose first column is
    [idx]: the rows the lookup loops of the multi-table parser keep. *)
Definition has_index (min_cols : nat) (table : list (list string)) (idx : string)
  : bool :=
  existsb
    (fun row => (min_cols <=? List.length row)%nat && String.eqb (hd "" row) idx)
    table.



(** A row is malformed for the traffic parser: too short, no description,
    or a counter that [int()] rejects. *)
Definition traffic_row_malformed (row : list string) : bool :=
  match row with
  | _ :: descr :: i :: o :: _ =>
      negb (truthy descr)
      || negb (returns (int_if_nonempty i) && returns (int_if_nonempty o))
  | _ => true
  end.

Section Rates.
Variable VS : Type.
Variable api : Api VS.

(** The two [get_rate] calls of one [try] block, on the keys [key_in] and
    [key_out], end in [GetRateError]: the first call raises it, or the first
    call returns a rate and the second raises it. *)
Definition rate_unavailable (vs : VS) (now : float)
  (key_in : string) (v_in : Z) (key_out : string) (v_out : Z) : Prop :=
  snd (get_rate api vs key_in now v_in) = Raise GetRateError
  \/ (exists r,
        snd (get_rate api vs key_in now v_in) = Return r
        /\ snd (get_rate api (fst (get_rate api vs key_in now v_in))
                  key_out now v_out) = Raise GetRateError).

(** The value store after those calls. *)
Definition store_after_rates (vs : VS) (now : float)
  (key_in : string) (v_in : Z) (key_out : string) (v_out : Z) : VS :=
  let first := get_rate api vs key_in now v_in in
  match snd first with
  | Return _ => fst (get_rate api (fst first) key_out now v_out)
  | Raise _ => fst first
  end.
End Rates.

(** The severity of a yielded item; a metric has none. *)
Definition yield_state (y : Yield) : option State :=
  match y with
  | YResult r => Some (state r)
  | YMetric _ => None
  end.

End Props.

(* ===================================================================== *)
(** ** An in-memory instance of the library, to run the checks *)
(* ===================================================================== *)

Module Sample.
Import Py Cmk.

(** The value store: the last (time, value) per key. *)
Definition store : Type := Dict.t (float * Z).

(** [get_rate] as the library documents it: the sample is stored; the first
    sample of a key and a clock that did not advance raise [GetRateError]. *)
Definition get_rate (vs : store) (key : string) (now : float) (value : Z)
  : store * outcome float :=
  let vs' := Dict.set vs key (now, value) in
  match Dict.get vs key with
  | None => (vs', Raise GetRateError)
  | Some (last_time, last_value) =>
      if (now <=? last_time)%float then (vs', Raise GetRateError)
      else (vs', d <- float_of_int (value - last_value) ;;
                 Return (d / (now - last_time))%float)
  end.

(** [check_levels] for fixed upper levels; the rendered texts are reduced to
    the label. *)
Definition check_levels (c : LevelsCall) : list Yield * outcome unit :=
  let st :=
    match cl_levels_upper c with
    | Some (Fixed w cr) | Some (Bare w cr) =>
        if (cr <=? cl_value c)%float then CRIT
        else if (w <=? cl_value c)%float then WARN else OK
    | _ => OK
    end in
  ([result_ st (Summary (cl_label c)); metric (cl_metric_name c) (cl_value c)],
   Return tt).

Definition networkbandwidth (n : num) : string := "? Bit/s".

Definition api : Api store := mkApi get_rate check_levels networkbandwidth.

End Sample.

(* ===================================================================== *)
(** ** snmp_check.py, example 3: CPU and memory *)
(* ===================================================================== *)

Module SystemResources.
Import Py Cmk.

(** The parsed section, [{"cpu_percent": ..., "memory_used": ...,
    "memory_total": ...}]. *)
Record Resources : Type := mkResources {
  cpu_percent : float;
  memory_used : Z;
  memory_total : Z
}.

Section Parse.
(** [float(s)] for a string: [None] stands for [ValueError]. *)
Variable parse_float : string -> option float.

Definition float_ (s : string) : outcome float :=
  match parse_float s with
  | Some f => Return f
  | None => Raise ValueError
  end.

(** [int(row[i]) if len(row) > i and row[i] else 0] *)
Definition int_at (row : list string) (i : nat) : outcome Z :=
  match nth_error row i with
  | Some s => int_if_nonempty s
  | None => Return 0
  end.

(** Parse CPU and memory values. *)
Definition parse_system_resources (string_table : list (list string))
  : outcome (option Resources) :=
  match string_table with
  | [] => Return None
  | [] :: _ => Return None
  | (r0 :: _) as row :: _ =>
      except_ValueError
        (cpu <- (if truthy r0 then float_ r0 else Return 0%float) ;;
         used <- int_at row 1 ;;
         total <- int_at row 2 ;;
         Return (Some (mkResources cpu used total)))
        (Return None)
  end.
End Parse.

(** Discover if data is available. *)
Definition discover_system_resources (section : option Resources) : list Service :=
  match section with
  | Some s => if 0 <? memory_total s then [mkService None Dict.empty] else []
  | None => []
  end.

End SystemResources.

(* ===================================================================== *)
(** ** Shapes of rows and fields *)
(* ===================================================================== *)

Module Shapes.
Import Py.

(** Every character of the string is ASCII. *)
Definition ascii_only (s : string) : bool :=
  forallb (fun c => (code c <? 128)%N) (list_ascii_of_string s).

(** The string is within the interpreter's limit on integer literals. *)
Definition short_literal (s : string) : bool :=
  (N.of_nat (String.length s) <=? int_max_str_digits)%N.

(** A row that the status and traffic parsers skip before any conversion:
    fewer than four columns, or an empty description. *)
Definition four_column_row_skipped (row : list string) : bool :=
  match row with
  | _ :: descr :: _ :: _ :: _ => negb (truthy descr)
  | _ => true
  end.

(** A row of the ifTable that the multi-table parser skips: fewer than six
    columns, or an empty description. *)
Definition if_row_skipped (row : list string) : bool :=
  match row with
  | _ :: descr :: _ :: _ :: _ :: _ :: _ => negb (truthy descr)
  | _ => true
  end.

(** A line that the advanced agent parser skips, for [float()] given by
    [parse_float]: fewer than three columns, or a value that is no float. *)
Definition mycheck_line_skipped (parse_float : string -> option float)
  (line : list string) : bool :=
  match line with
  | _ :: l1 :: _ :: _ =>
      match parse_float l1 with Some _ => false | None => true end
  | _ => true
  end.

(** The status fields of the rows are ASCII and within the literal limit. *)
Definition status_fields_plain (table : list (list string)) : bool :=
  forallb
    (fun row =>
       match row with
       | _ :: _ :: admin_status :: oper_status :: _ =>
           ascii_only admin_status && short_literal admin_status
           && ascii_only oper_status && short_literal oper_status
       | _ => true
       end)
    table.

(** A table has a row of at least four columns with description [descr]. *)
Definition has_description (table : list (list string)) (descr : string) : bool :=
  existsb
    (fun row =>
       match row with
       | _ :: d :: _ :: _ :: _ => String.eqb d descr
       | _ => false
       end)
    table.

(** The keys of a mapping are distinct and none is the empty string. *)
Definition well_keyed {V} (d : Dict.t V) : Prop :=
  NoDup (Dict.keys d) /\ Forall (fun key => truthy key = true) (Dict.keys d).

(** A generator raises, if it raises, an exception that satisfies [P]. *)
Definition raises_only {VS A} (P : exn -> Prop) (m : Cmk.Check VS A) : Prop :=
  forall vs e, Cmk.result (m vs) = Raise e -> P e.

(** The exception is one that a call of the library raises. *)
Definition library_raises {VS} (api : Cmk.Api VS) (e : exn) : Prop :=
  (exists vs key now value, snd (Cmk.get_rate api vs key now value) = Raise e)
  \/ (exists call, snd (Cmk.check_levels api call) = Raise e).

End Shapes.

(* ===================================================================== *)
(** * Properties *)
(* ===================================================================== *)

Import Py Cmk Props.

(** ** Dictionaries *)

Section DictFacts.
Variable V : Type.
Implicit Types (d : Dict.t V) (k : string) (v : V).

Lemma dict_get_set_same d k v : Dict.get (Dict.set d k v) k = Some v.
Proof.
  induction d as [|[k' v'] d IH]; simpl.
  - now rewrite String.eqb_refl.
  - destruct (String.eqb k' k) eqn:E; simpl.
    + now rewrite String.eqb_refl.
    + now rewrite E.
Qed.

Lemma dict_get_set_other d k k' v :
  k <> k' -> Dict.get (Dict.set d k v) k' = Dict.get d k'.
Proof.
  intros Hne. induction d as [|[k0 v0] d IH]; simpl.
  - destruct (String.eqb k k') eqn:E; [apply String.eqb_eq in E; contradiction | reflexivity].
  - destruct (String.eqb k0 k) eqn:E; simpl.
    + apply String.eqb_eq in E. subst k0.
      destruct (String.eqb k k') eqn:E'; [apply String.eqb_eq in E'; contradiction | reflexivity].
    + destruct (String.eqb k0 k'); [reflexivity | exact IH].
Qed.

Lemma dict_keys_set d k v k' :
  In k' (Dict.keys (Dict.set d k v)) <-> k' = k \/ In k' (Dict.keys d).
Proof.
  induction d as [|[k0 v0] d IH]; simpl.
  - intuition.
  - destruct (String.eqb k0 k) eqn:E; simpl.
    + apply String.eqb_eq in E. subst k0. intuition.
    + rewrite IH. intuition.
Qed.

Lemma dict_set_NoDup d k v :
  NoDup (Dict.keys d) -> NoDup (Dict.keys (Dict.set d k v)).
Proof.
  induction d as [|[k0 v0] d IH]; simpl; intros Hnd.
  - constructor; [intros [] | constructor].
  - inversion Hnd as [|? ? Hnotin Hnd']; subst.
    destruct (String.eqb k0 k) eqn:E; simpl.
    + apply String.eqb_eq in E. subst k0. now constructor.
    + constructor; [| now apply IH].
      rewrite dict_keys_set. intros [-> | Hin]; [| contradiction].
      now rewrite String.eqb_refl in E.
Qed.

Lemma dict_set_truthy d k v : Dict.truthy (Dict.set d k v) = true.
Proof.
  destruct d as [|[k0 v0] d]; simpl; [reflexivity |].
  now destruct (String.eqb k0 k).
Qed.

Lemma dict_get_None d k : Dict.get d k = None <-> ~ In k (Dict.keys d).
Proof.
  induction d as [|[k0 v0] d IH]; simpl.
  - intuition.
  - destruct (String.eqb k0 k) eqn:E.
    + apply String.eqb_eq in E. subst. split; [discriminate | intros H; exfalso; auto].
    + apply String.eqb_neq in E. rewrite IH. intuition.
Qed.

Lemma dict_get_In d k v : Dict.get d k = Some v -> In (k, v) d.
Proof.
  induction d as [|[k0 v0] d IH]; simpl; [discriminate |].
  destruct (String.eqb k0 k) eqn:E.
  - apply String.eqb_eq in E. intros [= ->]. subst. now left.
  - intros H. right. now apply IH.
Qed.

Lemma dict_In_get d k v : NoDup (Dict.keys d) -> In (k, v) d -> Dict.get d k = Some v.
Proof.
  induction d as [|[k0 v0] d IH]; simpl; [intros _ [] |].
  intros Hnd [Heq | Hin]; inversion Hnd as [|? ? Hnotin Hnd']; subst.
  - injection Heq as -> ->. now rewrite String.eqb_refl.
  - destruct (String.eqb k0 k) eqn:E.
    + apply String.eqb_eq in E. subst k0. exfalso. apply Hnotin.
      change (In (fst (k, v)) (map fst d)). now apply in_map.
    + now apply IH.
Qed.

Lemma dict_or_none_spec d :
  Dict.or_none d = None /\ d = [] \/ Dict.or_none d = Some d /\ d <> [].
Proof. destruct d; [left | right]; split; (reflexivity || discriminate). Qed.

End DictFacts.

(** ** Loops whose body may raise *)

Lemma for_each_app {A S} (step : S -> A -> outcome S) xs ys acc :
  for_each step (xs ++ ys) acc
  = Py.bind (for_each step xs acc) (for_each step ys).
Proof.
  revert acc. induction xs as [|x xs IH]; intros acc; simpl; [reflexivity |].
  destruct (step acc x); simpl; [apply IH | reflexivity].
Qed.

(** An invariant of the accumulator that every step keeps holds of the
    result. *)
Lemma for_each_invariant {A S} (step : S -> A -> outcome S) (P : S -> Prop) :
  (forall acc x acc', P acc -> step acc x = Return acc' -> P acc') ->
  forall xs acc res, P acc -> for_each step xs acc = Return res -> P res.
Proof.
  intros Hstep. induction xs as [|x xs IH]; simpl; intros acc res HP Hrun.
  - injection Hrun as <-. exact HP.
  - destruct (step acc x) as [acc'|e] eqn:E; simpl in Hrun; [| discriminate].
    eapply IH; [eapply Hstep; eassumption | exact Hrun].
Qed.

(** A loop whose body never raises returns. *)
Lemma for_each_returns {A S} (step : S -> A -> outcome S) xs :
  (forall acc x, In x xs -> returns (step acc x) = true) ->
  forall acc, exists res, for_each step xs acc = Return res.
Proof.
  induction xs as [|x xs IH]; simpl; intros Hstep acc.
  - now exists acc.
  - specialize (Hstep acc x (or_introl eq_refl)) as Hx.
    destruct (step acc x) as [acc'|e]; simpl in *; [| discriminate].
    apply IH. intros acc0 y Hy. apply Hstep. now right.
Qed.

Lemma for_each_raises {A S} (step : S -> A -> outcome S) x xs :
  In x xs -> (forall acc, returns (step acc x) = false) ->
  forall acc, returns (for_each step xs acc) = false.
Proof.
  intros Hin Hbad. induction xs as [|y ys IH]; simpl; intros acc; [destruct Hin |].
  destruct Hin as [-> | Hin].
  - specialize (Hbad acc). destruct (step acc x); [discriminate | reflexivity].
  - destruct (step acc y); simpl; [now apply IH | reflexivity].
Qed.

(** ** Table parsing: rows that are skipped, rows that abort *)

Module ParseFacts.
Import SnmpCheck.

Lemma none_or_nonempty_or_none {V} (m : outcome (Dict.t V)) :
  none_or_nonempty (parsed <- m ;; Return (Dict.or_none parsed)) = true.
Proof. destruct m as [[|entry d]|e]; reflexivity. Qed.

(** The traffic parser contains every conversion error: its loop body
    returns on every row. *)
Lemma interface_traffic_row_returns parsed row :
  returns (interface_traffic_row parsed row) = true.
Proof.
  unfold interface_traffic_row.
  destruct row as [|idx [|descr [|i [|o extra]]]]; try reflexivity.
  destruct (truthy descr); simpl; [| reflexivity].
  unfold int_if_nonempty, int.
  destruct (truthy i); [destruct (parse_int i) |]; simpl; try reflexivity;
    (destruct (truthy o); [destruct (parse_int o) |]; reflexivity).
Qed.

Lemma parse_interface_traffic_returns string_table :
  returns (parse_interface_traffic string_table) = true.
Proof.
  unfold parse_interface_traffic.
  destruct string_table as [|row rows]; [reflexivity |].
  destruct (for_each_returns interface_traffic_row (row :: rows)
              (fun acc x _ => interface_traffic_row_returns acc x) Dict.empty)
    as [res ->].
  reflexivity.
Qed.

Lemma interface_traffic_row_skips parsed row :
  traffic_row_malformed row = true -> interface_traffic_row parsed row = Return parsed.
Proof.
  unfold traffic_row_malformed, interface_traffic_row.
  destruct row as [|idx [|descr [|i [|o extra]]]]; try reflexivity.
  destruct (truthy descr); simpl; [| reflexivity].
  unfold int_if_nonempty, int.
  destruct (truthy i); [destruct (parse_int i) |]; simpl;
    try (destruct (truthy o); [destruct (parse_int o) |]; simpl);
    intros H; (discriminate || reflexivity).
Qed.

(** In the traffic parser a malformed row is skipped and the other rows are
    parsed as if it were not there. *)
Lemma parse_interface_traffic_skips pre row post :
  traffic_row_malformed row = true ->
  parse_interface_traffic (pre ++ row :: post) = parse_interface_traffic (pre ++ post).
Proof.
  intros Hbad.
  assert (Hloop : for_each interface_traffic_row (pre ++ row :: post) Dict.empty
                  = for_each interface_traffic_row (pre ++ post) Dict.empty).
  { rewrite !for_each_app. destruct (for_each interface_traffic_row pre Dict.empty);
      simpl; [| reflexivity].
    now rewrite (interface_traffic_row_skips _ _ Hbad). }
  unfold parse_interface_traffic.
  destruct (pre ++ row :: post)%list as [|r rs] eqn:E1; [now destruct pre |].
  rewrite Hloop.
  destruct (pre ++ post)%list as [|r' rs'] eqn:E2; reflexivity.
Qed.

(** In the multi-table parser a counter row of five columns with a counter
    that [int()] rejects aborts the parse. *)
Lemma counter_row_raises d idx r1 r2 r3 r4 extra :
  returns (int_if_nonempty r1) && returns (int_if_nonempty r2)
  && returns (int_if_nonempty r3) && returns (int_if_nonempty r4) = false ->
  returns (MultiTable.counter_row d (idx :: r1 :: r2 :: r3 :: r4 :: extra)) = false.
Proof.
  unfold MultiTable.counter_row.
  destruct (int_if_nonempty r1); simpl; [| reflexivity].
  destruct (int_if_nonempty r2); simpl; [| reflexivity].
  destruct (int_if_nonempty r3); simpl; [| reflexivity].
  destruct (int_if_nonempty r4); simpl; [discriminate | reflexivity].
Qed.

Lemma parse_multi_table_interfaces_aborts if_table ifx_table if_counters rest
  idx r1 r2 r3 r4 extra :
  In (idx :: r1 :: r2 :: r3 :: r4 :: extra) if_counters ->
  returns (int_if_nonempty r1) && returns (int_if_nonempty r2)
  && returns (int_if_nonempty r3) && returns (int_if_nonempty r4) = false ->
  returns (MultiTable.parse_multi_table_interfaces
             (if_table :: ifx_table :: if_counters :: rest)) = false.
Proof.
  intros Hin Hbad. unfold MultiTable.parse_multi_table_interfaces,
    MultiTable.counters_by_index.
  pose proof (for_each_raises MultiTable.counter_row _ _ Hin
                (fun d => counter_row_raises d idx _ _ _ _ extra Hbad) Dict.empty) as H.
  destruct (for_each MultiTable.counter_row if_counters Dict.empty);
    [discriminate | reflexivity].
Qed.

End ParseFacts.

(** C1. A malformed row is skipped and never fails the parse of the whole
    table: the multi-table parser breaks this.  Its counter loop converts
    with [int(row[i]) if row[i] else 0] outside any [try]; one counter row
    whose counter is not a number raises [ValueError] out of
    [parse_multi_table_interfaces], although the interface row itself is
    well formed.  The traffic parser of snmp_check.py catches the same error
    and skips the row ([ParseFacts.parse_interface_traffic_skips]). *)
Theorem C1_bad_counter_row_aborts_multi_table_parse :
  MultiTable.parse_multi_table_interfaces
    [ [["1"; "eth0"; "6"; "1000"; "1"; "1"]];
      [["1"; "eth0"; "uplink"]];
      [["1"; "abc"; "0"; "0"; "0"]] ]
  = Raise ValueError
  /\ SnmpCheck.parse_interface_traffic
       [["1"; "eth0"; "abc"; "0"]; ["2"; "eth1"; "5"; "7"]]
     = Return (Some [("eth1", SnmpCheck.mkIfTraffic "2" 5 7)]).
Proof. split; reflexivity. Qed.

(** C6. An empty (or absent) input table parses to [None] without an error;
    discovery over [None] discovers nothing and the check reports UNKNOWN. *)
Theorem C6_no_data_is_a_valid_state :
  forall (VS : Type) (vs : VS) (parse_float : string -> option float),
    SnmpCheck.parse_interface_status [] = Return None
    /\ SnmpCheck.parse_interface_traffic [] = Return None
    /\ SnmpCheck.parse_device_setup [] = None
    /\ AgentSimple.parse_mycheck [] = None
    /\ AgentAdvanced.parse_mycheck parse_float [] = Return None
    /\ MultiTable.parse_multi_table_interfaces [] = Return None
    /\ (forall t1 t2,
          MultiTable.parse_multi_table_interfaces [t1] = Return None
          /\ MultiTable.parse_multi_table_interfaces [t1; t2] = Return None)
    /\ MultiTable.parse_multi_table_interfaces [[]; []; []] = Return None
    /\ AgentSimple.discover_mycheck None = []
    /\ SnmpCheck.discover_device_setup None = []
    /\ AgentSimple.check_mycheck None vs
       = mkRun [result_ UNKNOWN (Summary "No data")] vs (Return tt)
    /\ SnmpCheck.check_device_setup None vs
       = mkRun [result_ UNKNOWN (Summary "No SNMP data received")] vs (Return tt).
Proof. intros. repeat split. Qed.

(** C9. Every table parse function returns [None] or a non-empty mapping,
    never an empty one. *)
Theorem C9_parse_returns_none_or_nonempty :
  forall (parse_float : string -> option float),
    (forall string_table,
        none_or_nonempty (MultiTable.parse_multi_table_interfaces string_table) = true)
    /\ (forall string_table,
          none_or_nonempty (SnmpCheck.parse_interface_status string_table) = true)
    /\ (forall string_table,
          none_or_nonempty (SnmpCheck.parse_interface_traffic string_table) = true)
    /\ (forall string_table,
          none_or_nonempty (AgentAdvanced.parse_mycheck parse_float string_table) = true).
Proof.
  intros parse_float. repeat split; intros string_table.
  - unfold MultiTable.parse_multi_table_interfaces.
    destruct string_table as [|t1 [|t2 [|t3 rest]]]; try reflexivity.
    destruct (MultiTable.counters_by_index t3); simpl; [| reflexivity].
    apply ParseFacts.none_or_nonempty_or_none.
  - unfold SnmpCheck.parse_interface_status.
    destruct string_table; [reflexivity | apply ParseFacts.none_or_nonempty_or_none].
  - unfold SnmpCheck.parse_interface_traffic.
    destruct string_table; [reflexivity | apply ParseFacts.none_or_nonempty_or_none].
  - unfold AgentAdvanced.parse_mycheck.
    destruct string_table; [reflexivity | apply ParseFacts.none_or_nonempty_or_none].
Qed.

(** [str.isdigit] accepts a superscript digit that [int()] rejects, so the
    guard [int(s) if s.isdigit() else 0] can still raise. *)
Remark isdigit_guard_misses_superscripts :
  let s := String (ascii_of_nat 178) "" in
  isdigit s = true /\ int_if_isdigit s = Raise ValueError.
Proof. split; reflexivity. Qed.

(** ** Check functions *)

Section CheckFacts.
Variable VS : Type.
Variable api : Api VS.

Lemma yielded_bind_head {A B} (m : Check VS A) (k : A -> Check VS B) (vs : VS) y ys :
  yielded (m vs) = y :: ys ->
  exists rest, yielded ((a <~ m ;; k a) vs) = y :: rest.
Proof.
  intros Hm. unfold Cmk.bind. rewrite Hm.
  destruct (result (m vs)); simpl; eauto.
Qed.

(** The two rate calls of a [try] block, run to the first that raises
    [GetRateError]: nothing is yielded, the exception is raised, the store is
    the one the calls left. *)
Lemma rate_pair_unavailable {A} (vs : VS) now key_in v_in key_out v_out
  (k : float -> float -> Check VS A) :
  rate_unavailable api vs now key_in v_in key_out v_out ->
  (in_rate <~ rate api key_in now v_in ;;
   out_rate <~ rate api key_out now v_out ;;
   k in_rate out_rate) vs
  = mkRun [] (store_after_rates api vs now key_in v_in key_out v_out)
      (Raise GetRateError).
Proof.
  unfold rate_unavailable, store_after_rates, Cmk.bind, rate.
  destruct (get_rate api vs key_in now v_in) as [vs1 r1]; simpl.
  intros [-> | [r [-> H2]]]; simpl; [reflexivity |].
  destruct (get_rate api vs1 key_out now v_out) as [vs2 r2]; simpl in *.
  subst r2. reflexivity.
Qed.

(** The traffic block when no rate is available. *)
Lemma traffic_rates_unavailable item params interface now (vs : VS) :
  rate_unavailable api vs now
    ("in_octets." ++ item) (MultiTable.in_octets interface)
    ("out_octets." ++ item) (MultiTable.out_octets interface) ->
  MultiTable.traffic_rates api item params interface now vs
  = mkRun [result_ OK (Notice "Traffic: collecting data...")]
      (store_after_rates api vs now
         ("in_octets." ++ item) (MultiTable.in_octets interface)
         ("out_octets." ++ item) (MultiTable.out_octets interface))
      (Return tt).
Proof.
  intros Hrate. unfold MultiTable.traffic_rates, except_GetRateError.
  rewrite (rate_pair_unavailable _ Hrate). reflexivity.
Qed.

(** The status and speed blocks yield, return, and leave the store. *)
Lemma status_check_run params interface (vs : VS) :
  exists y, MultiTable.status_check params interface vs = mkRun [y] vs (Return tt).
Proof.
  unfold MultiTable.status_check.
  destruct (MultiTable.oper_status_map (MultiTable.oper_status interface)) as [st txt].
  destruct (negb (MultiTable.oper_status interface
                  =? MultiTable.param (MultiTable.expected_status params) 1)
            && MultiTable.is_admin_up interface);
    [| destruct (negb (MultiTable.is_admin_up interface))]; eexists; reflexivity.
Qed.

Lemma speed_check_run params interface (vs : VS) :
  exists ys, MultiTable.speed_check api params interface vs = mkRun ys vs (Return tt).
Proof.
  unfold MultiTable.speed_check.
  destruct (0 <? MultiTable.speed interface); [| eexists; reflexivity].
  destruct (negb (MultiTable.param (MultiTable.discovered_speed params) 0 =? 0)
            && negb (MultiTable.speed interface
                     =? MultiTable.param (MultiTable.discovered_speed params) 0));
    eexists; reflexivity.
Qed.

(** What the whole check yields is what its four blocks yield, in order. *)
Lemma check_multi_table_interfaces_blocks item params section interface now vs :
  Dict.get section item = Some interface ->
  result (MultiTable.traffic_rates api item params interface now vs) = Return tt ->
  yielded (MultiTable.check_multi_table_interfaces api item params section now vs)
  = (yielded (MultiTable.status_check params interface vs)
     ++ yielded (MultiTable.speed_check api params interface vs)
     ++ yielded (MultiTable.traffic_rates api item params interface now vs)
     ++ yielded (MultiTable.error_rates api item params interface now
                   (store (MultiTable.traffic_rates api item params interface now vs))))%list.
Proof.
  intros Hget Htraffic. unfold MultiTable.check_multi_table_interfaces.
  rewrite Hget.
  destruct (status_check_run params interface vs) as [y Hy].
  destruct (speed_check_run params interface vs) as [ys Hys].
  unfold Cmk.bind. rewrite Hy. simpl. rewrite Hys. simpl.
  rewrite Htraffic. simpl. reflexivity.
Qed.

End CheckFacts.

(** C2. When the rate computation reports that no rate is available yet
    ([get_rate] raises [GetRateError]), the check functions yield for it at
    most one result, of state OK, that says data is being collected:
    [check_interface_traffic] yields exactly that result and returns;
    the traffic block of [check_multi_table_interfaces] yields exactly that
    result, so that the whole check yields it between the results of the
    status and speed blocks and those of the error-rate block; the
    error-rate block yields nothing for it. *)
Theorem C2_rate_not_available_is_benign :
  forall (VS : Type) (api : Api VS) (item : string) (now : float),
    (forall section data vs,
        Dict.get section item = Some data ->
        rate_unavailable api vs now
          ("in_octets." ++ item) (SnmpCheck.tr_in_octets data)
          ("out_octets." ++ item) (SnmpCheck.tr_out_octets data) ->
        let run := SnmpCheck.check_interface_traffic api item section now vs in
        yielded run = [result_ OK (Summary "Collecting data...")]
        /\ result run = Return tt
        /\ Forall (fun y => yield_state y = Some OK) (yielded run))
    /\ (forall params interface vs,
          rate_unavailable api vs now
            ("in_octets." ++ item) (MultiTable.in_octets interface)
            ("out_octets." ++ item) (MultiTable.out_octets interface) ->
          let run := MultiTable.traffic_rates api item params interface now vs in
          yielded run = [result_ OK (Notice "Traffic: collecting data...")]
          /\ result run = Return tt
          /\ Forall (fun y => yield_state y = Some OK) (yielded run))
    /\ (forall params interface vs,
          rate_unavailable api vs now
            ("in_errors." ++ item) (MultiTable.in_errors interface)
            ("out_errors." ++ item) (MultiTable.out_errors interface) ->
          let run := MultiTable.error_rates api item params interface now vs in
          yielded run = [] /\ result run = Return tt)
    /\ (forall params section interface vs,
          Dict.get section item = Some interface ->
          rate_unavailable api vs now
            ("in_octets." ++ item) (MultiTable.in_octets interface)
            ("out_octets." ++ item) (MultiTable.out_octets interface) ->
          yielded (MultiTable.check_multi_table_interfaces api item params section now vs)
          = (yielded (MultiTable.status_check params interface vs)
             ++ yielded (MultiTable.speed_check api params interface vs)
             ++ [result_ OK (Notice "Traffic: collecting data...")]
             ++ yielded (MultiTable.error_rates api item params interface now
                           (store_after_rates api vs now
                              ("in_octets." ++ item) (MultiTable.in_octets interface)
                              ("out_octets." ++ item) (MultiTable.out_octets interface))))%list).
Proof.
  intros VS api item now. split; [| split; [| split]].
  - intros section data vs Hget Hrate run.
    assert (Hrun : run = mkRun [result_ OK (Summary "Collecting data...")]
                           (store_after_rates api vs now
                              ("in_octets." ++ item) (SnmpCheck.tr_in_octets data)
                              ("out_octets." ++ item) (SnmpCheck.tr_out_octets data))
                           (Return tt)).
    { subst run. unfold SnmpCheck.check_interface_traffic. rewrite Hget.
      unfold Cmk.bind at 1, except_GetRateError.
      rewrite (rate_pair_unavailable _ Hrate). reflexivity. }
    rewrite Hrun. simpl. repeat split. repeat constructor.
  - intros params interface vs Hrate run. subst run.
    rewrite (@traffic_rates_unavailable _ api item params interface now vs Hrate). simpl.
    repeat split. repeat constructor.
  - intros params interface vs Hrate run.
    subst run. unfold MultiTable.error_rates, except_GetRateError.
    rewrite (rate_pair_unavailable _ Hrate). simpl. split; reflexivity.
  - intros params section interface vs Hget Hrate.
    rewrite (check_multi_table_interfaces_blocks api item params section now vs Hget);
      rewrite (@traffic_rates_unavailable _ api item params interface now vs Hrate); reflexivity.
Qed.

(** C4. A check asked for an item that the parsed section does not hold
    yields exactly one result, UNKNOWN with a "not found" summary, no metric,
    and returns without touching the value store. *)
Theorem C4_missing_entity_is_unknown :
  forall (VS : Type) (api : Api VS) (item : string) (now : float) (vs : VS),
    (forall section,
        Dict.get section item = None ->
        SnmpCheck.check_interface_status item section vs
        = mkRun [result_ UNKNOWN (Summary "Interface not found")] vs (Return tt))
    /\ (forall section,
          Dict.get section item = None ->
          SnmpCheck.check_interface_traffic api item section now vs
          = mkRun [result_ UNKNOWN (Summary "Interface not found")] vs (Return tt))
    /\ (forall params section,
          Dict.get section item = None ->
          MultiTable.check_multi_table_interfaces api item params section now vs
          = mkRun [result_ UNKNOWN (Summary "Interface not found")] vs (Return tt))
    /\ (forall params section,
          Dict.get section item = None ->
          AgentAdvanced.check_mycheck api item params section vs
          = mkRun [result_ UNKNOWN (Summary "Item not found in data")] vs (Return tt)).
Proof.
  intros VS api item now vs. split; [| split; [| split]].
  - intros section Hget. unfold SnmpCheck.check_interface_status.
    now rewrite Hget.
  - intros section Hget. unfold SnmpCheck.check_interface_traffic.
    now rewrite Hget.
  - intros params section Hget. unfold MultiTable.check_multi_table_interfaces.
    now rewrite Hget.
  - intros params section Hget. unfold AgentAdvanced.check_mycheck.
    now rewrite Hget.
Qed.

(** C8. For an interface that is administratively down ([admin_status] is
    not 1) the status result of the interface checks has state OK, whatever
    [oper_status] is, and its text ends in "(admin down)". *)
Theorem C8_admin_down_status_is_ok :
  forall (VS : Type) (api : Api VS) (item : string) (now : float) (vs : VS),
    (forall section data,
        Dict.get section item = Some data ->
        SnmpCheck.st_admin_status data <> 1 ->
        SnmpCheck.check_interface_status item section vs
        = mkRun
            [result_ OK
               (Summary ("Operational status: "
                         ++ snd (SnmpCheck.oper_status_map (SnmpCheck.st_oper_status data))
                         ++ " (admin down)"))]
            vs (Return tt))
    /\ (forall params interface,
          MultiTable.admin_status interface <> 1 ->
          MultiTable.status_check params interface vs
          = mkRun
              [result_ OK
                 (Summary ("Status: "
                           ++ snd (MultiTable.oper_status_map (MultiTable.oper_status interface))
                           ++ " (admin down)"))]
              vs (Return tt))
    /\ (forall params section interface,
          Dict.get section item = Some interface ->
          MultiTable.admin_status interface <> 1 ->
          exists rest,
            yielded (MultiTable.check_multi_table_interfaces api item params section now vs)
            = result_ OK
                (Summary ("Status: "
                          ++ snd (MultiTable.oper_status_map (MultiTable.oper_status interface))
                          ++ " (admin down)"))
              :: rest).
Proof.
  intros VS api item now vs.
  assert (Hstatus : forall params interface,
             MultiTable.admin_status interface <> 1 ->
             MultiTable.status_check params interface vs
             = mkRun
                 [result_ OK
                    (Summary ("Status: "
                              ++ snd (MultiTable.oper_status_map (MultiTable.oper_status interface))
                              ++ " (admin down)"))]
                 vs (Return tt)).
  { intros params interface Hadmin. unfold MultiTable.status_check, MultiTable.is_admin_up.
    apply Z.eqb_neq in Hadmin. rewrite Hadmin.
    destruct (MultiTable.oper_status_map (MultiTable.oper_status interface)) as [st txt].
    rewrite andb_false_r. reflexivity. }
  split; [| split].
  - intros section data Hget Hadmin. unfold SnmpCheck.check_interface_status.
    rewrite Hget. apply Z.eqb_neq in Hadmin. rewrite Hadmin.
    destruct (SnmpCheck.oper_status_map (SnmpCheck.st_oper_status data)) as [st txt].
    reflexivity.
  - exact Hstatus.
  - intros params section interface Hget Hadmin.
    unfold MultiTable.check_multi_table_interfaces. rewrite Hget.
    eapply yielded_bind_head. rewrite (Hstatus params interface Hadmin). reflexivity.
Qed.

(** ** Threshold evaluation on floats *)

Module FloatFacts.

Lemma SFcompare_antisym x y :
  SFcompare y x = option_map CompOpp (SFcompare x y).
Proof.
  destruct x as [sx|sx| |sx mx ex], y as [sy|sy| |sy my ey]; simpl;
    try reflexivity;
    try (destruct sx; reflexivity); try (destruct sy; reflexivity);
    try (destruct sx, sy; reflexivity).
  change (Pos.compare_cont Eq my mx) with (Pos.compare my mx).
  change (Pos.compare_cont Eq mx my) with (Pos.compare mx my).
  rewrite (Z.compare_antisym ex ey), (Pos.compare_antisym mx my).
  destruct sx, sy; simpl; try reflexivity;
    destruct (ex ?= ey); simpl; try reflexivity;
    destruct (mx ?= my)%positive; reflexivity.
Qed.

(** [x == y] gives [x <= y] and [y <= x]. *)
Lemma eqb_leb x y : (x =? y)%float = true -> (x <=? y)%float = true.
Proof.
  rewrite eqb_spec, leb_spec. unfold SFeqb, SFleb.
  destruct (SFcompare (Prim2SF x) (Prim2SF y)) as [[]|]; (discriminate || reflexivity).
Qed.

Lemma eqb_geb x y : (x =? y)%float = true -> (y <=? x)%float = true.
Proof.
  rewrite eqb_spec, leb_spec. unfold SFeqb, SFleb.
  rewrite (SFcompare_antisym (Prim2SF x) (Prim2SF y)).
  destruct (SFcompare (Prim2SF x) (Prim2SF y)) as [[]|]; (discriminate || reflexivity).
Qed.

(** [x < y] excludes [y <= x]. *)
Lemma ltb_not_geb x y : (x <? y)%float = true -> (y <=? x)%float = false.
Proof.
  rewrite ltb_spec, leb_spec. unfold SFltb, SFleb.
  rewrite (SFcompare_antisym (Prim2SF x) (Prim2SF y)).
  destruct (SFcompare (Prim2SF x) (Prim2SF y)) as [[]|]; (discriminate || reflexivity).
Qed.

End FloatFacts.

(** What [check_thresholds] returns for a (warning, critical) pair, by
    direction. *)
Lemma check_thresholds_fixed value warning critical lower_is_worse :
  ActiveCheck.check_thresholds value (Some warning) (Some critical) lower_is_worse
  = if lower_is_worse
    then if (value <=? critical)%float then ActiveCheck.CRITICAL
         else if (value <=? warning)%float then ActiveCheck.WARNING
              else ActiveCheck.OK
    else if (critical <=? value)%float then ActiveCheck.CRITICAL
         else if (warning <=? value)%float then ActiveCheck.WARNING
              else ActiveCheck.OK.
Proof. reflexivity. Qed.

(** [check_thresholds] on a (warning, critical) pair is inclusive and tests
    critical first.  Upper direction: a value equal to critical is CRITICAL,
    a value equal to warning and below critical is WARNING, a value at or
    above both is CRITICAL.  Lower direction: the same with [<=]. *)
Lemma check_thresholds_inclusive :
  forall value warning critical : float,
    ((value =? critical)%float = true ->
     ActiveCheck.check_thresholds value (Some warning) (Some critical) false
     = ActiveCheck.CRITICAL)
    /\ ((value =? warning)%float = true -> (value <? critical)%float = true ->
        ActiveCheck.check_thresholds value (Some warning) (Some critical) false
        = ActiveCheck.WARNING)
    /\ ((warning <=? value)%float = true -> (critical <=? value)%float = true ->
        ActiveCheck.check_thresholds value (Some warning) (Some critical) false
        = ActiveCheck.CRITICAL)
    /\ ((value =? critical)%float = true ->
        ActiveCheck.check_thresholds value (Some warning) (Some critical) true
        = ActiveCheck.CRITICAL)
    /\ ((value =? warning)%float = true -> (critical <? value)%float = true ->
        ActiveCheck.check_thresholds value (Some warning) (Some critical) true
        = ActiveCheck.WARNING)
    /\ ((value <=? warning)%float = true -> (value <=? critical)%float = true ->
        ActiveCheck.check_thresholds value (Some warning) (Some critical) true
        = ActiveCheck.CRITICAL).
Proof.
  intros value warning critical. rewrite !check_thresholds_fixed.
  repeat apply conj.
  - intros Heq. now rewrite (FloatFacts.eqb_geb Heq).
  - intros Heq Hlt.
    now rewrite (FloatFacts.ltb_not_geb Hlt), (FloatFacts.eqb_geb Heq).
  - intros _ Hcrit. now rewrite Hcrit.
  - intros Heq. now rewrite (FloatFacts.eqb_leb Heq).
  - intros Heq Hgt.
    now rewrite (FloatFacts.ltb_not_geb Hgt), (FloatFacts.eqb_leb Heq).
  - intros _ Hcrit. now rewrite Hcrit.
Qed.

(** ** The limits of the local checks *)

Lemma check_process_count_cases count min_count max_count :
  (count < min_count ->
   LocalCheck.check_process_count count min_count max_count = LocalCheck.STATUS_CRIT)
  /\ (min_count <= count -> max_count < count ->
      LocalCheck.check_process_count count min_count max_count = LocalCheck.STATUS_WARN)
  /\ (min_count <= count <= max_count ->
      LocalCheck.check_process_count count min_count max_count = LocalCheck.STATUS_OK).
Proof.
  unfold LocalCheck.check_process_count.
  destruct (Z.ltb_spec count min_count), (Z.ltb_spec max_count count);
    repeat split; intros; (reflexivity || lia).
Qed.

Lemma check_backup_cases age_hours size_mb max_age_hours min_size_mb :
  (float_gt_int age_hours max_age_hours = true ->
   LocalCheck.check_backup age_hours size_mb max_age_hours min_size_mb
   = LocalCheck.STATUS_CRIT)
  /\ (float_cmp_int age_hours max_age_hours = Some Eq ->
      float_lt_int size_mb min_size_mb = false ->
      LocalCheck.check_backup age_hours size_mb max_age_hours min_size_mb
      = LocalCheck.STATUS_OK)
  /\ (float_gt_int age_hours max_age_hours = false ->
      float_lt_int size_mb min_size_mb = true ->
      LocalCheck.check_backup age_hours size_mb max_age_hours min_size_mb
      = LocalCheck.STATUS_WARN)
  /\ (float_gt_int age_hours max_age_hours = false ->
      float_cmp_int size_mb min_size_mb = Some Eq ->
      LocalCheck.check_backup age_hours size_mb max_age_hours min_size_mb
      = LocalCheck.STATUS_OK).
Proof.
  unfold LocalCheck.check_backup, float_gt_int, float_lt_int.
  destruct (float_cmp_int age_hours max_age_hours) as [[]|],
    (float_cmp_int size_mb min_size_mb) as [[]|];
    repeat split; intros; (reflexivity || discriminate).
Qed.

(** C3, as it is stated, fails on the local checks it is read from: a value
    on a limit is within range.  A process count equal to [min_count] or to
    [max_count] is OK, and a backup whose age equals [max_age_hours] (and
    whose size equals [min_size_mb]) is OK. *)
Lemma C3_value_on_a_local_limit_is_ok :
  LocalCheck.check_process_count 1 1 100 = LocalCheck.STATUS_OK
  /\ LocalCheck.check_process_count 100 1 100 = LocalCheck.STATUS_OK
  /\ float_cmp_int 25 25 = Some Eq
  /\ float_cmp_int 10 10 = Some Eq
  /\ LocalCheck.check_backup 25 10 25 10 = LocalCheck.STATUS_OK.
Proof. repeat split. Qed.

(** C3 (amended). Evaluation against a (warning, critical) pair, which
    [check_thresholds] does, is inclusive and tests critical first: in the
    upper direction a value equal to critical is CRITICAL, a value equal to
    warning and below critical is WARNING, and a value at or above both is
    CRITICAL; in the lower direction the same with [<=].  The local checks
    [check_process_count] and [check_backup] evaluate no such pair: each
    compares with single limits, strictly, the critical condition first, so
    a value on a limit stays within range. *)
Theorem C3_pair_evaluation_inclusive_local_limits_strict :
  (forall value warning critical : float,
      ((value =? critical)%float = true ->
       ActiveCheck.check_thresholds value (Some warning) (Some critical) false
       = ActiveCheck.CRITICAL)
      /\ ((value =? warning)%float = true -> (value <? critical)%float = true ->
          ActiveCheck.check_thresholds value (Some warning) (Some critical) false
          = ActiveCheck.WARNING)
      /\ ((warning <=? value)%float = true -> (critical <=? value)%float = true ->
          ActiveCheck.check_thresholds value (Some warning) (Some critical) false
          = ActiveCheck.CRITICAL)
      /\ ((value =? critical)%float = true ->
          ActiveCheck.check_thresholds value (Some warning) (Some critical) true
          = ActiveCheck.CRITICAL)
      /\ ((value =? warning)%float = true -> (critical <? value)%float = true ->
          ActiveCheck.check_thresholds value (Some warning) (Some critical) true
          = ActiveCheck.WARNING)
      /\ ((value <=? warning)%float = true -> (value <=? critical)%float = true ->
          ActiveCheck.check_thresholds value (Some warning) (Some critical) true
          = ActiveCheck.CRITICAL))
  /\ (forall count min_count max_count,
        (count < min_count ->
         LocalCheck.check_process_count count min_count max_count
         = LocalCheck.STATUS_CRIT)
        /\ (min_count <= count -> max_count < count ->
            LocalCheck.check_process_count count min_count max_count
            = LocalCheck.STATUS_WARN)
        /\ (min_count <= count <= max_count ->
            LocalCheck.check_process_count count min_count max_count
            = LocalCheck.STATUS_OK))
  /\ (forall age_hours size_mb max_age_hours min_size_mb,
        (float_gt_int age_hours max_age_hours = true ->
         LocalCheck.check_backup age_hours size_mb max_age_hours min_size_mb
         = LocalCheck.STATUS_CRIT)
        /\ (float_cmp_int age_hours max_age_hours = Some Eq ->
            float_lt_int size_mb min_size_mb = false ->
            LocalCheck.check_backup age_hours size_mb max_age_hours min_size_mb
            = LocalCheck.STATUS_OK)
        /\ (float_gt_int age_hours max_age_hours = false ->
            float_lt_int size_mb min_size_mb = true ->
            LocalCheck.check_backup age_hours size_mb max_age_hours min_size_mb
            = LocalCheck.STATUS_WARN)
        /\ (float_gt_int age_hours max_age_hours = false ->
            float_cmp_int size_mb min_size_mb = Some Eq ->
            LocalCheck.check_backup age_hours size_mb max_age_hours min_size_mb
            = LocalCheck.STATUS_OK)).
Proof.
  split; [exact check_thresholds_inclusive |].
  split; [exact check_process_count_cases | exact check_backup_cases].
Qed.

(** ** Discovery *)

Module DiscoveryFacts.
Import MultiTable.

(** The service discovered for an entity: its key, and the speed and the
    operational status it has at discovery time. *)
Lemma discovered_service section svc :
  In svc (discover_multi_table_interfaces section) <->
  exists name interface,
    In (name, interface) section
    /\ existsb (Z.eqb (if_type interface)) physical_if_types = true
    /\ svc = mkService (Some name)
               [("discovered_speed", speed interface);
                ("discovered_oper_status", oper_status interface)].
Proof.
  unfold discover_multi_table_interfaces. rewrite in_flat_map. split.
  - intros [[name interface] [Hin Hsvc]].
    destruct (existsb (Z.eqb (if_type interface)) physical_if_types) eqn:E;
      [| destruct Hsvc].
    destruct Hsvc as [<- | []]. now exists name, interface.
  - intros (name & interface & Hin & Hphys & ->).
    exists (name, interface). split; [exact Hin |]. rewrite Hphys. now left.
Qed.

(** Each key is discovered at most once. *)
Lemma discovered_items_NoDup section :
  NoDup (Dict.keys section) ->
  NoDup (map item (discover_multi_table_interfaces section)).
Proof.
  induction section as [|[name interface] rest IH]; intros Hnd; [constructor |].
  inversion Hnd as [|? ? Hnotin Hnd']; subst.
  change (discover_multi_table_interfaces ((name, interface) :: rest))
    with ((if existsb (Z.eqb (if_type interface)) physical_if_types
           then [mkService (Some name)
                   [("discovered_speed", speed interface);
                    ("discovered_oper_status", oper_status interface)]]
           else []) ++ discover_multi_table_interfaces rest)%list.
  destruct (existsb (Z.eqb (if_type interface)) physical_if_types);
    [| now apply IH].
  cbn [app map item]. constructor; [| now apply IH].
  rewrite in_map_iff. intros [svc [Hitem Hin]].
  apply (discovered_service rest) in Hin.
  destruct Hin as (name' & interface' & Hin' & _ & ->). cbn [item] in Hitem.
  injection Hitem as ->. apply Hnotin.
  change (In (fst (name, interface')) (map fst rest)). now apply in_map.
Qed.

End DiscoveryFacts.

(** C7. Discovery depends on the parsed mapping only: two runs over the
    same mapping (the same entity under every key, whatever the order in
    which the entities were stored) discover the same set of services, that
    is the same keys with the same baseline values; every key is discovered
    at most once, and its baseline is the speed and the operational status
    of its entity. *)
Theorem C7_discovery_is_idempotent :
  forall section section' : MultiTable.Section_,
    NoDup (Dict.keys section) -> NoDup (Dict.keys section') ->
    (forall key, Dict.get section key = Dict.get section' key) ->
    (forall svc,
        In svc (MultiTable.discover_multi_table_interfaces section)
        <-> In svc (MultiTable.discover_multi_table_interfaces section'))
    /\ NoDup (map item (MultiTable.discover_multi_table_interfaces section))
    /\ (forall svc,
          In svc (MultiTable.discover_multi_table_interfaces section) ->
          exists key interface,
            item svc = Some key
            /\ Dict.get section key = Some interface
            /\ Dict.get (parameters svc) "discovered_speed"
               = Some (MultiTable.speed interface)
            /\ Dict.get (parameters svc) "discovered_oper_status"
               = Some (MultiTable.oper_status interface)).
Proof.
  intros section section' Hnd Hnd' Hsame.
  assert (Hentries : forall s s' : MultiTable.Section_,
             NoDup (Dict.keys s) -> (forall key, Dict.get s key = Dict.get s' key) ->
             forall svc, In svc (MultiTable.discover_multi_table_interfaces s) ->
                         In svc (MultiTable.discover_multi_table_interfaces s')).
  { intros s s' Hs Heq svc Hin.
    apply DiscoveryFacts.discovered_service in Hin.
    destruct Hin as (key & interface & Hin & Hphys & ->).
    apply DiscoveryFacts.discovered_service. exists key, interface.
    split; [| now split].
    apply dict_get_In. rewrite <- Heq. now apply dict_In_get. }
  split; [| split].
  - intros svc. split; [now apply Hentries |].
    apply Hentries; [exact Hnd' | intros key; symmetry; apply Hsame].
  - now apply DiscoveryFacts.discovered_items_NoDup.
  - intros svc Hin. apply DiscoveryFacts.discovered_service in Hin.
    destruct Hin as (key & interface & Hin & _ & ->).
    exists key, interface. repeat split. now apply dict_In_get.
Qed.

(** ** Multi-table correlation *)

Lemma for_each_invariant_in {A S} (step : S -> A -> outcome S) (P : S -> Prop) xs :
  (forall acc x acc', In x xs -> P acc -> step acc x = Return acc' -> P acc') ->
  forall acc res, P acc -> for_each step xs acc = Return res -> P res.
Proof.
  induction xs as [|x xs IH]; simpl; intros Hstep acc res HP Hrun.
  - injection Hrun as <-. exact HP.
  - destruct (step acc x) as [acc'|e] eqn:E; simpl in Hrun; [| discriminate].
    apply (IH (fun a y a' Hy => Hstep a y a' (or_intror Hy)) acc' res);
      [| exact Hrun].
    apply (Hstep acc x acc'); auto.
Qed.

Module MultiFacts.
Import MultiTable.

(** *** The lookups built from the auxiliary tables *)

Lemma ifx_lookup_absent ifx_table idx d :
  Dict.get d idx = None -> has_index 3 ifx_table idx = false ->
  Dict.get (fold_left ifx_row ifx_table d) idx = None.
Proof.
  revert d. induction ifx_table as [|row rows IH]; intros d Hd Habs; [exact Hd |].
  cbn [has_index existsb] in Habs. apply orb_false_elim in Habs as [Hrow Hrows].
  cbn [fold_left]. apply IH; [| exact Hrows].
  destruct row as [|i [|n [|a extra]]]; try exact Hd.
  cbn in Hrow. cbn [ifx_row].
  rewrite dict_get_set_other; [exact Hd |].
  intros ->. now rewrite String.eqb_refl in Hrow.
Qed.

Lemma ifx_by_index_absent ifx_table idx :
  has_index 3 ifx_table idx = false ->
  Dict.get (ifx_by_index ifx_table) idx = None.
Proof. now apply ifx_lookup_absent. Qed.

Lemma counter_row_spec d row d' :
  counter_row d row = Return d' ->
  d' = d
  \/ exists idx r1 r2 r3 r4 extra data,
       row = idx :: r1 :: r2 :: r3 :: r4 :: extra /\ d' = Dict.set d idx data.
Proof.
  unfold counter_row.
  destruct row as [|idx [|r1 [|r2 [|r3 [|r4 extra]]]]];
    try (intros [= <-]; now left).
  destruct (int_if_nonempty r1) as [a|]; simpl; [| discriminate].
  destruct (int_if_nonempty r2) as [b|]; simpl; [| discriminate].
  destruct (int_if_nonempty r3) as [c|]; simpl; [| discriminate].
  destruct (int_if_nonempty r4) as [e|]; simpl; [| discriminate].
  intros [= <-]. right. now exists idx, r1, r2, r3, r4, extra, (mkCounterData a b c e).
Qed.

Lemma counters_by_index_absent if_counters idx counters :
  counters_by_index if_counters = Return counters ->
  has_index 5 if_counters idx = false ->
  Dict.get counters idx = None.
Proof.
  unfold counters_by_index. intros Hrun Habs.
  apply (for_each_invariant_in counter_row
           (fun d => Dict.get d idx = None) if_counters) with (acc := Dict.empty);
    [| reflexivity | exact Hrun].
  intros acc row acc' Hin Hacc Hstep.
  destruct (counter_row_spec _ _ Hstep)
    as [-> | (i & r1 & r2 & r3 & r4 & extra & data & -> & ->)]; [exact Hacc |].
  rewrite dict_get_set_other; [exact Hacc |].
  intros ->. unfold has_index in Habs.
  rewrite <- not_true_iff_false in Habs. apply Habs.
  apply existsb_exists. eexists. split; [exact Hin |].
  cbn. now rewrite String.eqb_refl.
Qed.


(** *** The entity built from a row of the primary table *)




(** One turn of the merging loop either leaves the mapping or stores the
    built entity under its display name. *)
Lemma merge_row_spec ifx counters parsed row parsed' :
  merge_row ifx counters parsed row = Return parsed' ->
  (interface_of_row ifx counters row = Return None /\ parsed' = parsed)
  \/ exists interface,
       interface_of_row ifx counters row = Return (Some interface)
       /\ parsed' = Dict.set parsed (display_name interface) interface.
Proof.
  unfold merge_row.
  destruct (interface_of_row ifx counters row) as [[e|]|]; simpl;
    [| | discriminate]; intros [= <-]; [right; now exists e | now left].
Qed.

(** *** The merging loop *)

Section Merging.
Variable ifx : Dict.t IfxData.
Variable counters : Dict.t CounterData.

Lemma merged_keys_NoDup rows acc section :
  NoDup (Dict.keys acc) ->
  for_each (merge_row ifx counters) rows acc = Return section ->
  NoDup (Dict.keys section).
Proof.
  apply (for_each_invariant (merge_row ifx counters)
           (fun d => NoDup (Dict.keys d))).
  intros d row d' Hd Hstep.
  destruct (merge_row_spec _ _ _ _ Hstep) as [[_ ->] | (e & _ & ->)];
    [exact Hd | now apply dict_set_NoDup].
Qed.

Lemma merged_keyed_by_display_name rows acc section :
  (forall key e, Dict.get acc key = Some e -> display_name e = key) ->
  for_each (merge_row ifx counters) rows acc = Return section ->
  forall key e, Dict.get section key = Some e -> display_name e = key.
Proof.
  apply (for_each_invariant (merge_row ifx counters)
           (fun d => forall key e, Dict.get d key = Some e -> display_name e = key)).
  intros d row d' Hd Hstep key e.
  destruct (merge_row_spec _ _ _ _ Hstep) as [[_ ->] | (e' & _ & ->)];
    [apply Hd |].
  destruct (String.eqb (display_name e') key) eqn:E.
  - apply String.eqb_eq in E. subst key. rewrite dict_get_set_same.
    now intros [= ->].
  - apply String.eqb_neq in E. rewrite dict_get_set_other by exact E. apply Hd.
Qed.



(** The entity of the last row with a display name is the one the mapping
    holds under that name. *)
Lemma merged_last_wins pre row post acc section e :
  interface_of_row ifx counters row = Return (Some e) ->
  (forall later other,
      In later post ->
      interface_of_row ifx counters later = Return (Some other) ->
      display_name other <> display_name e) ->
  for_each (merge_row ifx counters) (pre ++ row :: post) acc = Return section ->
  Dict.get section (display_name e) = Some e.
Proof.
  intros Hbuilt Hlater. rewrite for_each_app.
  destruct (for_each (merge_row ifx counters) pre acc) as [mid|]; simpl;
    [| discriminate].
  unfold merge_row at 1. rewrite Hbuilt. simpl.
  apply (for_each_invariant_in (merge_row ifx counters)
           (fun d => Dict.get d (display_name e) = Some e) post).
  - intros d later d' Hin Hd Hstep.
    destruct (merge_row_spec _ _ _ _ Hstep) as [[_ ->] | (other & Hother & ->)];
      [exact Hd |].
    rewrite dict_get_set_other; [exact Hd |].
    now apply (Hlater later other).
  - apply dict_get_set_same.
Qed.

End Merging.

(** *** The parse function, from its three loops *)

Lemma parse_multi_table_interfaces_spec if_table ifx_table if_counters rest section :
  parse_multi_table_interfaces (if_table :: ifx_table :: if_counters :: rest)
  = Return (Some section) ->
  exists counters,
    counters_by_index if_counters = Return counters
    /\ for_each (merge_row (ifx_by_index ifx_table) counters) if_table Dict.empty
       = Return section.
Proof.
  unfold parse_multi_table_interfaces.
  destruct (counters_by_index if_counters) as [counters|]; simpl; [| discriminate].
  destruct (for_each (merge_row (ifx_by_index ifx_table) counters) if_table Dict.empty)
    as [parsed|] eqn:Hmerged; simpl; [| discriminate].
  destruct parsed as [|entry parsed]; [discriminate |].
  intros Hsection. injection Hsection as <-.
  exists counters. split; [reflexivity | exact Hmerged].
Qed.


End MultiFacts.



(** C10. The multi-table parser keys the entities by display name (ifName,
    else the alias, else the description), not by index: the mapping holds
    one entity per display name, each under its own display name, and of two
    rows with different indices and one display name the later row's entity
    replaces the earlier row's. *)
Theorem C10_entities_keyed_by_display_name :
  forall if_table ifx_table if_counters rest section,
    MultiTable.parse_multi_table_interfaces
      (if_table :: ifx_table :: if_counters :: rest) = Return (Some section) ->
    NoDup (Dict.keys section)
    /\ (forall key interface,
          In (key, interface) section ->
          key = MultiTable.display_name interface
          /\ key = (if truthy (MultiTable.name interface)
                    then MultiTable.name interface
                    else if truthy (MultiTable.alias interface)
                         then MultiTable.alias interface
                         else MultiTable.descr interface))
    /\ exists counters,
         MultiTable.counters_by_index if_counters = Return counters
         /\ forall pre earlier mid later post e1 e2,
              if_table = (pre ++ earlier :: mid ++ later :: post)%list ->
              MultiTable.interface_of_row (MultiTable.ifx_by_index ifx_table)
                counters earlier = Return (Some e1) ->
              MultiTable.interface_of_row (MultiTable.ifx_by_index ifx_table)
                counters later = Return (Some e2) ->
              MultiTable.index e1 <> MultiTable.index e2 ->
              MultiTable.display_name e1 = MultiTable.display_name e2 ->
              (forall row other,
                  In row post ->
                  MultiTable.interface_of_row (MultiTable.ifx_by_index ifx_table)
                    counters row = Return (Some other) ->
                  MultiTable.display_name other <> MultiTable.display_name e2) ->
              Dict.get section (MultiTable.display_name e2) = Some e2
              /\ ~ In e1 (map snd section).
Proof.
  intros if_table ifx_table if_counters rest section Hparse.
  destruct (MultiFacts.parse_multi_table_interfaces_spec _ _ _ _ Hparse)
    as (counters & Hc & Hmerged).
  assert (Hnd : NoDup (Dict.keys section)).
  { eapply MultiFacts.merged_keys_NoDup; [| exact Hmerged]. constructor. }
  assert (Hkeyed : forall key e, Dict.get section key = Some e ->
                                 MultiTable.display_name e = key).
  { eapply MultiFacts.merged_keyed_by_display_name; [| exact Hmerged].
    discriminate. }
  split; [exact Hnd | split].
  - intros key interface Hin.
    assert (Hkey : key = MultiTable.display_name interface).
    { symmetry. apply Hkeyed. now apply dict_In_get. }
    split; [exact Hkey | exact Hkey].
  - exists counters. split; [exact Hc |].
    intros pre earlier mid later post e1 e2 Htable H1 H2 Hidx Hname Hlast.
    assert (Hget : Dict.get section (MultiTable.display_name e2) = Some e2).
    { rewrite Htable in Hmerged.
      change (pre ++ earlier :: mid ++ later :: post)%list
        with (pre ++ (earlier :: mid) ++ later :: post)%list in Hmerged.
      rewrite app_assoc in Hmerged.
      exact (MultiFacts.merged_last_wins _ _ _ _ _ _ H2 Hlast Hmerged). }
    split; [exact Hget |].
    rewrite in_map_iff. intros [[key e] [Heq Hin]]. cbn in Heq. subst e.
    pose proof (dict_In_get _ _ _ Hnd Hin) as Hget1.
    pose proof (Hkeyed _ _ Hget1) as Hk. subst key.
    rewrite Hname, Hget in Hget1. injection Hget1 as ->. now apply Hidx.
Qed.

(** ** The properties on concrete inputs *)

(** Scenario 4 of the specification: levels (80, 90), upper direction. *)
Example thresholds_scenario :
  ActiveCheck.check_thresholds 85 (Some 80%float) (Some 90%float) false = ActiveCheck.WARNING
  /\ ActiveCheck.check_thresholds 95 (Some 80%float) (Some 90%float) false = ActiveCheck.CRITICAL
  /\ ActiveCheck.check_thresholds 50 (Some 80%float) (Some 90%float) false = ActiveCheck.OK.
Proof. repeat split. Qed.

Lemma C2_first_sample_is_benign :
  yielded (SnmpCheck.check_interface_traffic Sample.api "eth0"
             [("eth0", SnmpCheck.mkIfTraffic "1" 1000 2000)] 100 [])
  = [result_ OK (Summary "Collecting data...")]
  /\ yielded (MultiTable.traffic_rates Sample.api "eth0"
                (MultiTable.mkParams None None None None)
                (MultiTable.mkInterfaceData "1" "eth0" "" "" 6 1000 1 1 1000 2000 0 0)
                100 [])
     = [result_ OK (Notice "Traffic: collecting data...")]
  /\ yielded (MultiTable.error_rates Sample.api "eth0"
                (MultiTable.mkParams None None None None)
                (MultiTable.mkInterfaceData "1" "eth0" "" "" 6 1000 1 1 1000 2000 0 0)
                100 [])
     = [].
Proof.
  destruct (@C2_rate_not_available_is_benign Sample.store Sample.api "eth0" 100%float)
    as (Htraffic & Hblock & Herrors & _).
  split; [| split].
  - apply (Htraffic [("eth0", SnmpCheck.mkIfTraffic "1" 1000 2000)]
             (SnmpCheck.mkIfTraffic "1" 1000 2000) []);
      [reflexivity | left; reflexivity].
  - apply (Hblock (MultiTable.mkParams None None None None)
             (MultiTable.mkInterfaceData "1" "eth0" "" "" 6 1000 1 1 1000 2000 0 0) []).
    left; reflexivity.
  - apply (Herrors (MultiTable.mkParams None None None None)
             (MultiTable.mkInterfaceData "1" "eth0" "" "" 6 1000 1 1 1000 2000 0 0) []).
    left; reflexivity.
Defined.

Lemma C3_boundary_values :
  ActiveCheck.check_thresholds 90 (Some 80%float) (Some 90%float) false
  = ActiveCheck.CRITICAL
  /\ ActiveCheck.check_thresholds 80 (Some 80%float) (Some 90%float) false
     = ActiveCheck.WARNING
  /\ ActiveCheck.check_thresholds 5 (Some 10%float) (Some 5%float) true
     = ActiveCheck.CRITICAL
  /\ ActiveCheck.check_thresholds 10 (Some 10%float) (Some 5%float) true
     = ActiveCheck.WARNING
  /\ LocalCheck.check_process_count 100 1 100 = LocalCheck.STATUS_OK
  /\ LocalCheck.check_process_count 0 1 100 = LocalCheck.STATUS_CRIT
  /\ LocalCheck.check_backup 25 10 25 10 = LocalCheck.STATUS_OK
  /\ LocalCheck.check_backup 25.5 10 25 10 = LocalCheck.STATUS_CRIT.
Proof.
  destruct C3_pair_evaluation_inclusive_local_limits_strict
    as (Hpair & Hcount & Hbackup).
  split; [apply (proj1 (Hpair 90 80 90)%float); reflexivity |].
  split; [apply (proj1 (proj2 (Hpair 80 80 90)%float)); reflexivity |].
  split; [apply (proj1 (proj2 (proj2 (proj2 (Hpair 5 10 5)%float)))); reflexivity |].
  split; [apply (proj1 (proj2 (proj2 (proj2 (proj2 (Hpair 10 10 5)%float)))));
          reflexivity |].
  split; [apply (proj2 (proj2 (Hcount 100 1 100))); lia |].
  split; [apply (proj1 (Hcount 0 1 100)); lia |].
  split; [apply (proj1 (proj2 (Hbackup 25%float 10%float 25 10))); reflexivity |].
  apply (proj1 (Hbackup 25.5%float 10%float 25 10)). reflexivity.
Defined.

(** Scenario 5 of the specification: the item "eth5" is not in the section. *)
Lemma C4_eth5_not_found :
  MultiTable.check_multi_table_interfaces Sample.api "eth5"
    (MultiTable.mkParams None None None None)
    [("eth0", MultiTable.mkInterfaceData "1" "eth0" "" "" 6 1000 1 1 1000 2000 0 0)]
    100 []
  = mkRun [result_ UNKNOWN (Summary "Interface not found")] [] (Return tt).
Proof.
  apply (proj1 (proj2 (proj2
           (@C4_missing_entity_is_unknown Sample.store Sample.api "eth5" 100%float [])))).
  reflexivity.
Defined.

Lemma C8_admin_down_interface :
  SnmpCheck.check_interface_status "eth1"
    [("eth1", SnmpCheck.mkIfStatus "2" 2 2)] (tt : unit)
  = mkRun [result_ OK (Summary "Operational status: down (admin down)")] tt (Return tt)
  /\ MultiTable.status_check (MultiTable.mkParams None None None None)
       (MultiTable.mkInterfaceData "2" "eth1" "" "" 6 1000 2 2 0 0 0 0) (tt : unit)
     = mkRun [result_ OK (Summary "Status: down (admin down)")] tt (Return tt).
Proof.
  split.
  - apply (proj1 (@C8_admin_down_status_is_ok unit
                    (mkApi (fun vs _ _ _ => (vs, Raise GetRateError))
                       Sample.check_levels Sample.networkbandwidth)
                    "eth1" 100%float tt)
             [("eth1", SnmpCheck.mkIfStatus "2" 2 2)] (SnmpCheck.mkIfStatus "2" 2 2));
      [reflexivity | discriminate].
  - apply (proj1 (proj2 (@C8_admin_down_status_is_ok unit
                    (mkApi (fun vs _ _ _ => (vs, Raise GetRateError))
                       Sample.check_levels Sample.networkbandwidth)
                    "eth1" 100%float tt))
             (MultiTable.mkParams None None None None)
             (MultiTable.mkInterfaceData "2" "eth1" "" "" 6 1000 2 2 0 0 0 0)).
    discriminate.
Defined.


(** Two sections that hold the same entities in a different order: the
    service of "eth0" is discovered from both, once. *)
Lemma C7_same_mapping_same_services :
  (In (mkService (Some "eth0")
         [("discovered_speed", 1000); ("discovered_oper_status", 1)])
      (MultiTable.discover_multi_table_interfaces
         [("eth0", MultiTable.mkInterfaceData "1" "eth0" "" "" 6 1000 1 1 0 0 0 0);
          ("lo", MultiTable.mkInterfaceData "2" "lo" "" "" 24 0 1 1 0 0 0 0)])
   <-> In (mkService (Some "eth0")
             [("discovered_speed", 1000); ("discovered_oper_status", 1)])
          (MultiTable.discover_multi_table_interfaces
             [("lo", MultiTable.mkInterfaceData "2" "lo" "" "" 24 0 1 1 0 0 0 0);
              ("eth0", MultiTable.mkInterfaceData "1" "eth0" "" "" 6 1000 1 1 0 0 0 0)]))
  /\ NoDup (map item
              (MultiTable.discover_multi_table_interfaces
                 [("eth0", MultiTable.mkInterfaceData "1" "eth0" "" "" 6 1000 1 1 0 0 0 0);
                  ("lo", MultiTable.mkInterfaceData "2" "lo" "" "" 24 0 1 1 0 0 0 0)])).
Proof.
  assert (Hnd : NoDup ["eth0"; "lo"]).
  { constructor; [intros [H | []]; discriminate H |].
    constructor; [intros [] | constructor]. }
  assert (Hnd' : NoDup ["lo"; "eth0"]).
  { constructor; [intros [H | []]; discriminate H |].
    constructor; [intros [] | constructor]. }
  destruct (@C7_discovery_is_idempotent
              [("eth0", MultiTable.mkInterfaceData "1" "eth0" "" "" 6 1000 1 1 0 0 0 0);
               ("lo", MultiTable.mkInterfaceData "2" "lo" "" "" 24 0 1 1 0 0 0 0)]
              [("lo", MultiTable.mkInterfaceData "2" "lo" "" "" 24 0 1 1 0 0 0 0);
               ("eth0", MultiTable.mkInterfaceData "1" "eth0" "" "" 6 1000 1 1 0 0 0 0)]
              Hnd Hnd')
    as (Hsame & Honce & _).
  - intros key. cbn [Dict.get].
    destruct (String.eqb "eth0" key) eqn:E0, (String.eqb "lo" key) eqn:E1;
      try reflexivity.
    apply String.eqb_eq in E0. apply String.eqb_eq in E1. subst key. discriminate E1.
  - split; [apply Hsame | exact Honce].
Defined.

(** Two rows with the indices 1 and 2 and the one description "eth0": the
    mapping holds the second row's entity only. *)
Lemma C10_later_row_replaces_earlier :
  exists section,
    MultiTable.parse_multi_table_interfaces
      [ [["1"; "eth0"; "6"; "1000"; "1"; "1"]; ["2"; "eth0"; "6"; "100"; "1"; "2"]];
        []; [] ]
    = Return (Some section)
    /\ NoDup (Dict.keys section)
    /\ Dict.get section "eth0"
       = Some (MultiTable.mkInterfaceData "2" "eth0" "" "" 6 100 1 2 0 0 0 0)
    /\ ~ In (MultiTable.mkInterfaceData "1" "eth0" "" "" 6 1000 1 1 0 0 0 0)
            (map snd section).
Proof.
  eexists. split; [reflexivity |].
  destruct (@C10_entities_keyed_by_display_name
              [["1"; "eth0"; "6"; "1000"; "1"; "1"]; ["2"; "eth0"; "6"; "100"; "1"; "2"]]
              [] [] [] _ eq_refl)
    as (Hnd & _ & counters & Hc & Hreplace).
  split; [exact Hnd |].
  injection Hc as <-.
  apply (Hreplace [] ["1"; "eth0"; "6"; "1000"; "1"; "1"] []
           ["2"; "eth0"; "6"; "100"; "1"; "2"] []
           (MultiTable.mkInterfaceData "1" "eth0" "" "" 6 1000 1 1 0 0 0 0)
           (MultiTable.mkInterfaceData "2" "eth0" "" "" 6 100 1 2 0 0 0 0));
    try reflexivity.
  - discriminate.
  - intros row other [].
Defined.

(* ===================================================================== *)
(** * Further properties of the templates *)
(* ===================================================================== *)

Import Shapes.

(** ** Rows that the parsers skip *)

(** A turn of a loop that leaves the accumulator can be dropped. *)
Lemma for_each_skip {A S} (step : S -> A -> outcome S) pre x post acc :
  (forall acc', step acc' x = Return acc') ->
  for_each step (pre ++ x :: post) acc = for_each step (pre ++ post) acc.
Proof.
  intros Hskip. rewrite !for_each_app.
  destruct (for_each step pre acc) as [mid|e]; simpl; [| reflexivity].
  now rewrite Hskip.
Qed.

Lemma fold_left_skip {A S} (step : S -> A -> S) pre x post acc :
  (forall acc', step acc' x = acc') ->
  fold_left step (pre ++ x :: post) acc = fold_left step (pre ++ post) acc.
Proof.
  intros Hskip. rewrite !fold_left_app. simpl. now rewrite Hskip.
Qed.

(** X1. [parse_interface_traffic] contains every conversion error: it
    returns for every table, whatever the fields hold. *)
Theorem X1_traffic_parse_never_raises :
  forall string_table,
    returns (SnmpCheck.parse_interface_traffic string_table) = true.
Proof. exact ParseFacts.parse_interface_traffic_returns. Qed.

(** X2. In [parse_interface_traffic] a malformed row (fewer than four
    columns, an empty description, or a counter that [int()] rejects) is
    skipped: the result is the one of the table without the row. *)
Theorem X2_traffic_parse_skips_malformed_rows :
  forall pre row post,
    traffic_row_malformed row = true ->
    SnmpCheck.parse_interface_traffic (pre ++ row :: post)
    = SnmpCheck.parse_interface_traffic (pre ++ post).
Proof. exact ParseFacts.parse_interface_traffic_skips. Qed.

Lemma X2_row_with_bad_counter_skipped :
  SnmpCheck.parse_interface_traffic
    ([["1"; "eth0"; "10"; "20"]] ++ ["2"; "eth1"; "n/a"; "5"] :: [["3"; "eth2"; ""; "7"]])
  = SnmpCheck.parse_interface_traffic
      ([["1"; "eth0"; "10"; "20"]] ++ [["3"; "eth2"; ""; "7"]]).
Proof.
  apply (X2_traffic_parse_skips_malformed_rows
           [["1"; "eth0"; "10"; "20"]] ["2"; "eth1"; "n/a"; "5"] [["3"; "eth2"; ""; "7"]]).
  reflexivity.
Defined.

Module SkipFacts.

Lemma mycheck_line_returns parse_float parsed line :
  returns (AgentAdvanced.mycheck_line parse_float parsed line) = true.
Proof.
  unfold AgentAdvanced.mycheck_line, AgentAdvanced.float_.
  destruct line as [|item_name [|l1 [|l2 extra]]]; try reflexivity.
  destruct (parse_float l1); reflexivity.
Qed.

Lemma mycheck_line_skips parse_float parsed line :
  mycheck_line_skipped parse_float line = true ->
  AgentAdvanced.mycheck_line parse_float parsed line = Return parsed.
Proof.
  unfold mycheck_line_skipped, AgentAdvanced.mycheck_line, AgentAdvanced.float_.
  destruct line as [|item_name [|l1 [|l2 extra]]]; try reflexivity.
  destruct (parse_float l1); [discriminate | reflexivity].
Qed.

Lemma interface_status_row_skips parsed row :
  four_column_row_skipped row = true ->
  SnmpCheck.interface_status_row parsed row = Return parsed.
Proof.
  unfold four_column_row_skipped, SnmpCheck.interface_status_row.
  destruct row as [|idx [|descr [|a [|o extra]]]]; try reflexivity.
  intros ->. reflexivity.
Qed.

Lemma merge_row_skips ifx counters parsed row :
  if_row_skipped row = true ->
  MultiTable.merge_row ifx counters parsed row = Return parsed.
Proof.
  unfold if_row_skipped, MultiTable.merge_row, MultiTable.interface_of_row.
  destruct row as [|idx [|descr [|ty [|sp [|adm [|op extra]]]]]]; try reflexivity.
  intros ->. reflexivity.
Qed.

Lemma ifx_row_skips d row :
  (List.length row < 3)%nat -> MultiTable.ifx_row d row = d.
Proof.
  destruct row as [|idx [|n [|a extra]]]; simpl; intros H; (reflexivity || lia).
Qed.

Lemma counter_row_skips d row :
  (List.length row < 5)%nat -> MultiTable.counter_row d row = Return d.
Proof.
  destruct row as [|idx [|r1 [|r2 [|r3 [|r4 extra]]]]]; simpl; intros H;
    (reflexivity || lia).
Qed.

End SkipFacts.

(** X3. The advanced agent parser returns for every section, and a line of
    fewer than three columns or with a value that [float()] rejects is
    skipped: the result is the one of the section without the line. *)
Theorem X3_mycheck_parse_contains_bad_lines :
  forall (parse_float : string -> option float),
    (forall string_table,
        returns (AgentAdvanced.parse_mycheck parse_float string_table) = true)
    /\ (forall pre line post,
          mycheck_line_skipped parse_float line = true ->
          AgentAdvanced.parse_mycheck parse_float (pre ++ line :: post)
          = AgentAdvanced.parse_mycheck parse_float (pre ++ post)).
Proof.
  intros parse_float. split.
  - intros string_table. unfold AgentAdvanced.parse_mycheck.
    destruct string_table as [|line lines]; [reflexivity |].
    destruct (for_each_returns (AgentAdvanced.mycheck_line parse_float) (line :: lines)
                (fun acc x _ => SkipFacts.mycheck_line_returns parse_float acc x)
                Dict.empty) as [res ->].
    reflexivity.
  - intros pre line post Hskip. unfold AgentAdvanced.parse_mycheck.
    rewrite (for_each_skip (AgentAdvanced.mycheck_line parse_float) pre line post
               Dict.empty
               (fun acc => SkipFacts.mycheck_line_skips parse_float acc line Hskip)).
    destruct (pre ++ line :: post)%list eqn:E1; [now destruct pre |].
    destruct (pre ++ post)%list; reflexivity.
Qed.

Lemma X3_line_with_bad_value_skipped :
  AgentAdvanced.parse_mycheck (fun s => if String.eqb s "75" then Some 75%float else None)
    ([["item1"; "75"; "OK"]] ++ ["item2"; "n/a"; "WARNING"] :: [])
  = AgentAdvanced.parse_mycheck (fun s => if String.eqb s "75" then Some 75%float else None)
      ([["item1"; "75"; "OK"]] ++ []).
Proof.
  apply (proj2 (X3_mycheck_parse_contains_bad_lines
                  (fun s => if String.eqb s "75" then Some 75%float else None))
           [["item1"; "75"; "OK"]] ["item2"; "n/a"; "WARNING"] []).
  reflexivity.
Defined.

(** X4. In [parse_interface_status] a row of fewer than four columns or with
    an empty description is skipped: the result (a mapping, [None] or an
    exception) is the one of the table without the row. *)
Theorem X4_status_parse_skips_short_rows :
  forall pre row post,
    four_column_row_skipped row = true ->
    SnmpCheck.parse_interface_status (pre ++ row :: post)
    = SnmpCheck.parse_interface_status (pre ++ post).
Proof.
  intros pre row post Hskip. unfold SnmpCheck.parse_interface_status.
  rewrite (for_each_skip SnmpCheck.interface_status_row pre row post Dict.empty
             (fun acc => SkipFacts.interface_status_row_skips acc row Hskip)).
  destruct (pre ++ row :: post)%list eqn:E1; [now destruct pre |].
  destruct (pre ++ post)%list; reflexivity.
Qed.

Lemma X4_short_row_skipped :
  SnmpCheck.parse_interface_status
    ([["1"; "eth0"; "1"; "1"]] ++ ["2"; "eth1"; "1"] :: [["3"; ""; "1"; "1"]])
  = SnmpCheck.parse_interface_status
      ([["1"; "eth0"; "1"; "1"]] ++ [["3"; ""; "1"; "1"]]).
Proof.
  apply (X4_status_parse_skips_short_rows
           [["1"; "eth0"; "1"; "1"]] ["2"; "eth1"; "1"] [["3"; ""; "1"; "1"]]).
  reflexivity.
Defined.

(** X5. In [parse_multi_table_interfaces] a row that is too short for its
    table (six columns in the ifTable, three in the ifXTable, five in the
    counter table), and an ifTable row with an empty description, is
    ignored whatever its fields hold: the result is the one of the tables
    without the row. *)
Theorem X5_multi_table_parse_skips_short_rows :
  forall if_table ifx_table if_counters rest pre row post,
    (if_row_skipped row = true ->
     if_table = (pre ++ row :: post)%list ->
     MultiTable.parse_multi_table_interfaces
       (if_table :: ifx_table :: if_counters :: rest)
     = MultiTable.parse_multi_table_interfaces
         ((pre ++ post)%list :: ifx_table :: if_counters :: rest))
    /\ ((List.length row < 3)%nat ->
        ifx_table = (pre ++ row :: post)%list ->
        MultiTable.parse_multi_table_interfaces
          (if_table :: ifx_table :: if_counters :: rest)
        = MultiTable.parse_multi_table_interfaces
            (if_table :: (pre ++ post)%list :: if_counters :: rest))
    /\ ((List.length row < 5)%nat ->
        if_counters = (pre ++ row :: post)%list ->
        MultiTable.parse_multi_table_interfaces
          (if_table :: ifx_table :: if_counters :: rest)
        = MultiTable.parse_multi_table_interfaces
            (if_table :: ifx_table :: (pre ++ post)%list :: rest)).
Proof.
  intros if_table ifx_table if_counters rest pre row post.
  unfold MultiTable.parse_multi_table_interfaces. split; [| split].
  - intros Hskip ->.
    destruct (MultiTable.counters_by_index if_counters) as [counters|];
      simpl; [| reflexivity].
    now rewrite (for_each_skip
                   (MultiTable.merge_row (MultiTable.ifx_by_index ifx_table) counters)
                   pre row post Dict.empty
                   (fun acc => SkipFacts.merge_row_skips _ _ acc row Hskip)).
  - intros Hshort ->. unfold MultiTable.ifx_by_index.
    now rewrite (fold_left_skip MultiTable.ifx_row pre row post Dict.empty
                   (fun acc => SkipFacts.ifx_row_skips acc row Hshort)).
  - intros Hshort ->. unfold MultiTable.counters_by_index.
    now rewrite (for_each_skip MultiTable.counter_row pre row post Dict.empty
                   (fun acc => SkipFacts.counter_row_skips acc row Hshort)).
Qed.

Lemma X5_short_counter_row_ignored :
  MultiTable.parse_multi_table_interfaces
    [ [["1"; "eth0"; "6"; "1000"; "1"; "1"]]; [];
      [["1"; "abc"; "0"; "0"]; ["1"; "5"; "6"; "0"; "0"]] ]
  = MultiTable.parse_multi_table_interfaces
      [ [["1"; "eth0"; "6"; "1000"; "1"; "1"]]; [];
        ([] ++ [["1"; "5"; "6"; "0"; "0"]])%list ].
Proof.
  apply (proj2 (proj2 (X5_multi_table_parse_skips_short_rows
                         [["1"; "eth0"; "6"; "1000"; "1"; "1"]] []
                         [["1"; "abc"; "0"; "0"]; ["1"; "5"; "6"; "0"; "0"]] []
                         [] ["1"; "abc"; "0"; "0"] [["1"; "5"; "6"; "0"; "0"]]))).
  - simpl. lia.
  - reflexivity.
Defined.

(** ** What the parsed sections hold *)

Module SectionFacts.

(** One turn of the status loop leaves the mapping or stores the converted
    row under its non-empty description. *)
Lemma interface_status_row_spec parsed row parsed' :
  SnmpCheck.interface_status_row parsed row = Return parsed' ->
  parsed' = parsed
  \/ exists idx descr a o extra adm op,
       row = idx :: descr :: a :: o :: extra
       /\ truthy descr = true
       /\ int_if_isdigit a = Return adm
       /\ int_if_isdigit o = Return op
       /\ parsed' = Dict.set parsed descr (SnmpCheck.mkIfStatus idx adm op).
Proof.
  unfold SnmpCheck.interface_status_row.
  destruct row as [|idx [|descr [|a [|o extra]]]];
    try (intros [= <-]; now left).
  destruct (truthy descr) eqn:Hdescr; simpl; [| intros [= <-]; now left].
  destruct (int_if_isdigit a) as [adm|] eqn:Ha; simpl; [| discriminate].
  destruct (int_if_isdigit o) as [op|] eqn:Ho; simpl; [| discriminate].
  intros [= <-]. right. now exists idx, descr, a, o, extra, adm, op.
Qed.

Lemma interface_traffic_row_spec parsed row parsed' :
  SnmpCheck.interface_traffic_row parsed row = Return parsed' ->
  parsed' = parsed
  \/ exists idx descr i o extra zi zo,
       row = idx :: descr :: i :: o :: extra
       /\ truthy descr = true
       /\ int_if_nonempty i = Return zi
       /\ int_if_nonempty o = Return zo
       /\ parsed' = Dict.set parsed descr (SnmpCheck.mkIfTraffic idx zi zo).
Proof.
  unfold SnmpCheck.interface_traffic_row.
  destruct row as [|idx [|descr [|i [|o extra]]]];
    try (intros [= <-]; now left).
  destruct (truthy descr) eqn:Hdescr; simpl; [| intros [= <-]; now left].
  destruct (int_if_nonempty i) as [zi|[]] eqn:Hi; simpl;
    try discriminate; try (intros [= <-]; now left).
  destruct (int_if_nonempty o) as [zo|[]] eqn:Ho; simpl;
    try discriminate; try (intros [= <-]; now left).
  intros [= <-]. right. now exists idx, descr, i, o, extra, zi, zo.
Qed.

Lemma mycheck_line_spec parse_float parsed line parsed' :
  AgentAdvanced.mycheck_line parse_float parsed line = Return parsed' ->
  parsed' = parsed
  \/ exists item_name l1 l2 extra v,
       line = item_name :: l1 :: l2 :: extra
       /\ parse_float l1 = Some v
       /\ parsed' = Dict.set parsed item_name (AgentAdvanced.mkItemData v l2).
Proof.
  unfold AgentAdvanced.mycheck_line, AgentAdvanced.float_.
  destruct line as [|item_name [|l1 [|l2 extra]]];
    try (intros [= <-]; now left).
  destruct (parse_float l1) as [v|] eqn:Hv; simpl; intros [= <-];
    [right; now exists item_name, l1, l2, extra, v | now left].
Qed.

(** The entity built from an ifTable row carries the row's index and
    non-empty description, and the auxiliary data found under the index. *)
Lemma interface_of_row_spec ifx counters row e :
  MultiTable.interface_of_row ifx counters row = Return (Some e) ->
  exists idx descr ty sp adm op extra,
    row = idx :: descr :: ty :: sp :: adm :: op :: extra
    /\ truthy descr = true
    /\ MultiTable.index e = idx
    /\ MultiTable.descr e = descr
    /\ int_if_isdigit ty = Return (MultiTable.if_type e)
    /\ int_if_isdigit sp = Return (MultiTable.speed e)
    /\ int_if_isdigit adm = Return (MultiTable.admin_status e)
    /\ int_if_isdigit op = Return (MultiTable.oper_status e)
    /\ MultiTable.name e
       = MultiTable.get_or (Dict.get ifx idx) MultiTable.ifx_name ""
    /\ MultiTable.alias e
       = MultiTable.get_or (Dict.get ifx idx) MultiTable.ifx_alias ""
    /\ MultiTable.in_octets e
       = MultiTable.get_or (Dict.get counters idx) MultiTable.c_in_octets 0
    /\ MultiTable.out_octets e
       = MultiTable.get_or (Dict.get counters idx) MultiTable.c_out_octets 0
    /\ MultiTable.in_errors e
       = MultiTable.get_or (Dict.get counters idx) MultiTable.c_in_errors 0
    /\ MultiTable.out_errors e
       = MultiTable.get_or (Dict.get counters idx) MultiTable.c_out_errors 0.
Proof.
  unfold MultiTable.interface_of_row.
  destruct row as [|idx [|descr [|ty [|sp [|adm [|op extra]]]]]]; try discriminate.
  destruct (truthy descr) eqn:Hdescr; simpl; [| discriminate].
  destruct (int_if_isdigit ty) as [t|] eqn:Ht; simpl; [| discriminate].
  destruct (int_if_isdigit sp) as [s|] eqn:Hs; simpl; [| discriminate].
  destruct (int_if_isdigit adm) as [a|] eqn:Ha; simpl; [| discriminate].
  destruct (int_if_isdigit op) as [o|] eqn:Ho; simpl; [| discriminate].
  intros [= <-]. exists idx, descr, ty, sp, adm, op, extra. cbn.
  repeat split; assumption.
Qed.

Lemma display_name_truthy e :
  truthy (MultiTable.descr e) = true -> truthy (MultiTable.display_name e) = true.
Proof.
  unfold MultiTable.display_name. intros Hdescr.
  destruct (truthy (MultiTable.name e)) eqn:Hn; [exact Hn |].
  destruct (truthy (MultiTable.alias e)) eqn:Ha; [exact Ha | exact Hdescr].
Qed.

(** The keys of a mapping stay non-empty when a non-empty key is stored. *)
Lemma keys_truthy_set {V} (d : Dict.t V) k v :
  truthy k = true ->
  Forall (fun key => truthy key = true) (Dict.keys d) ->
  Forall (fun key => truthy key = true) (Dict.keys (Dict.set d k v)).
Proof.
  intros Hk Hd. rewrite Forall_forall in *. intros key Hin.
  apply dict_keys_set in Hin as [-> | Hin]; [exact Hk | now apply Hd].
Qed.

Lemma well_keyed_empty {V} : well_keyed (@Dict.empty V).
Proof. split; constructor. Qed.

Lemma well_keyed_set {V} (d : Dict.t V) k v :
  truthy k = true -> well_keyed d -> well_keyed (Dict.set d k v).
Proof.
  intros Hk [Hnd Hkeys]. split;
    [now apply dict_set_NoDup | now apply keys_truthy_set].
Qed.

Lemma or_none_Some {V} (d s : Dict.t V) : Dict.or_none d = Some s -> d = s.
Proof. destruct d; [discriminate | now intros [= <-]]. Qed.

(** What a parse function of the shape
    [parsed = {}; for row in table: ...; return parsed if parsed else None]
    returns is what its loop left. *)
Lemma table_parse_loop {A V} (step : Dict.t V -> A -> outcome (Dict.t V))
  (table : list A) (section : Dict.t V) :
  match table with
  | [] => Return None
  | _ :: _ => parsed <- for_each step table Dict.empty ;; Return (Dict.or_none parsed)
  end = Return (Some section) ->
  for_each step table Dict.empty = Return section.
Proof.
  destruct table as [|row rows]; [discriminate |].
  destruct (for_each step (row :: rows) Dict.empty) as [parsed|]; simpl;
    [| discriminate].
  intros [= H]. now rewrite (or_none_Some _ H).
Qed.

End SectionFacts.

Module KeyFacts.

Lemma parse_interface_status_well_keyed string_table section :
  SnmpCheck.parse_interface_status string_table = Return (Some section) ->
  well_keyed section.
Proof.
  intros Hparse. apply SectionFacts.table_parse_loop in Hparse.
  apply (for_each_invariant SnmpCheck.interface_status_row
           (fun d => well_keyed d)) with (2 := SectionFacts.well_keyed_empty)
                                          (3 := Hparse).
  intros d row d' Hd Hstep.
  destruct (SectionFacts.interface_status_row_spec _ _ Hstep)
    as [-> | (idx & descr & a & o & extra & adm & op & _ & Hdescr & _ & _ & ->)];
    [exact Hd | now apply SectionFacts.well_keyed_set].
Qed.

Lemma parse_interface_traffic_well_keyed string_table section :
  SnmpCheck.parse_interface_traffic string_table = Return (Some section) ->
  well_keyed section.
Proof.
  intros Hparse. apply SectionFacts.table_parse_loop in Hparse.
  apply (for_each_invariant SnmpCheck.interface_traffic_row
           (fun d => well_keyed d)) with (2 := SectionFacts.well_keyed_empty)
                                          (3 := Hparse).
  intros d row d' Hd Hstep.
  destruct (SectionFacts.interface_traffic_row_spec _ _ Hstep)
    as [-> | (idx & descr & i & o & extra & zi & zo & _ & Hdescr & _ & _ & ->)];
    [exact Hd | now apply SectionFacts.well_keyed_set].
Qed.

Lemma parse_multi_table_interfaces_well_keyed string_table section :
  MultiTable.parse_multi_table_interfaces string_table = Return (Some section) ->
  well_keyed section.
Proof.
  intros Hparse.
  destruct string_table as [|if_table [|ifx_table [|if_counters rest]]];
    try discriminate.
  destruct (MultiFacts.parse_multi_table_interfaces_spec _ _ _ _ Hparse)
    as (counters & _ & Hmerged).
  apply (for_each_invariant
           (MultiTable.merge_row (MultiTable.ifx_by_index ifx_table) counters)
           (fun d => well_keyed d)) with (2 := SectionFacts.well_keyed_empty)
                                          (3 := Hmerged).
  intros d row d' Hd Hstep.
  destruct (MultiFacts.merge_row_spec _ _ _ _ Hstep) as [[_ ->] | (e & He & ->)];
    [exact Hd |].
  apply SectionFacts.well_keyed_set; [| exact Hd].
  apply SectionFacts.display_name_truthy.
  destruct (SectionFacts.interface_of_row_spec _ _ _ He)
    as (idx & descr & ty & sp & adm & op & extra & _ & Hdescr & _ & <- & _).
  exact Hdescr.
Qed.

Lemma parse_mycheck_keys_NoDup parse_float string_table section :
  AgentAdvanced.parse_mycheck parse_float string_table = Return (Some section) ->
  NoDup (Dict.keys section).
Proof.
  intros Hparse. apply SectionFacts.table_parse_loop in Hparse.
  apply (for_each_invariant (AgentAdvanced.mycheck_line parse_float)
           (fun d => NoDup (Dict.keys d))) with (2 := NoDup_nil _) (3 := Hparse).
  intros d line d' Hd Hstep.
  destruct (SectionFacts.mycheck_line_spec _ _ _ Hstep)
    as [-> | (item_name & l1 & l2 & extra & v & _ & _ & ->)];
    [exact Hd | now apply dict_set_NoDup].
Qed.

End KeyFacts.

(** X6. The mappings the table parsers return have distinct keys, and the
    SNMP parsers never key an entity by the empty string (the advanced agent
    parser takes an empty item name as it comes). *)
Theorem X6_parsed_keys_distinct_and_nonempty :
  forall (parse_float : string -> option float),
    (forall string_table section,
        SnmpCheck.parse_interface_status string_table = Return (Some section) ->
        well_keyed section)
    /\ (forall string_table section,
          SnmpCheck.parse_interface_traffic string_table = Return (Some section) ->
          well_keyed section)
    /\ (forall string_table section,
          MultiTable.parse_multi_table_interfaces string_table = Return (Some section) ->
          well_keyed section)
    /\ (forall string_table section,
          AgentAdvanced.parse_mycheck parse_float string_table = Return (Some section) ->
          NoDup (Dict.keys section)).
Proof.
  intros parse_float. split; [| split; [| split]].
  - exact KeyFacts.parse_interface_status_well_keyed.
  - exact KeyFacts.parse_interface_traffic_well_keyed.
  - exact KeyFacts.parse_multi_table_interfaces_well_keyed.
  - exact (KeyFacts.parse_mycheck_keys_NoDup parse_float).
Qed.

Lemma X6_keys_of_a_parsed_section :
  well_keyed [("eth0", SnmpCheck.mkIfStatus "3" 1 2); ("eth1", SnmpCheck.mkIfStatus "2" 0 1)].
Proof.
  apply (proj1 (X6_parsed_keys_distinct_and_nonempty (fun _ => None))
           [["1"; "eth0"; "1"; "1"]; ["2"; "eth1"; "x"; "1"]; ["3"; "eth0"; "1"; "2"]]).
  reflexivity.
Defined.

Lemma has_description_false table descr idx d a o extra :
  has_description table descr = false ->
  In (idx :: d :: a :: o :: extra) table -> d <> descr.
Proof.
  intros Hfalse Hin ->. unfold has_description in Hfalse.
  rewrite <- not_true_iff_false in Hfalse. apply Hfalse.
  apply existsb_exists. eexists. split; [exact Hin |]. cbn.
  apply String.eqb_refl.
Qed.

Lemma interface_status_row_stores parsed idx descr a o extra :
  truthy descr = true ->
  SnmpCheck.interface_status_row parsed (idx :: descr :: a :: o :: extra)
  = (adm <- int_if_isdigit a ;;
     op <- int_if_isdigit o ;;
     Return (Dict.set parsed descr (SnmpCheck.mkIfStatus idx adm op))).
Proof. intros Hdescr. unfold SnmpCheck.interface_status_row. now rewrite Hdescr. Qed.

(** X7. The mapping [parse_interface_status] returns reflects the table:
    every entity is the conversion of a row with its key as description, and
    the entity under a description is the one of the last row that has it. *)
Theorem X7_status_section_reflects_table :
  forall string_table section,
    SnmpCheck.parse_interface_status string_table = Return (Some section) ->
    (forall key e,
        Dict.get section key = Some e ->
        exists a o extra,
          In (SnmpCheck.st_index e :: key :: a :: o :: extra) string_table
          /\ int_if_isdigit a = Return (SnmpCheck.st_admin_status e)
          /\ int_if_isdigit o = Return (SnmpCheck.st_oper_status e))
    /\ (forall pre idx descr a o extra post,
          string_table = (pre ++ (idx :: descr :: a :: o :: extra) :: post)%list ->
          truthy descr = true ->
          has_description post descr = false ->
          exists adm op,
            int_if_isdigit a = Return adm
            /\ int_if_isdigit o = Return op
            /\ Dict.get section descr = Some (SnmpCheck.mkIfStatus idx adm op)).
Proof.
  intros string_table section Hparse.
  apply SectionFacts.table_parse_loop in Hparse. split.
  - apply (for_each_invariant_in SnmpCheck.interface_status_row
             (fun d => forall key e,
                  Dict.get d key = Some e ->
                  exists a o extra,
                    In (SnmpCheck.st_index e :: key :: a :: o :: extra) string_table
                    /\ int_if_isdigit a = Return (SnmpCheck.st_admin_status e)
                    /\ int_if_isdigit o = Return (SnmpCheck.st_oper_status e))
             string_table) with (3 := Hparse); [| discriminate].
    intros d row d' Hin Hd Hstep key e.
    destruct (SectionFacts.interface_status_row_spec _ _ Hstep)
      as [-> | (idx & descr & a & o & extra & adm & op & -> & _ & Ha & Ho & ->)];
      [apply Hd |].
    destruct (String.eqb descr key) eqn:E.
    + apply String.eqb_eq in E. subst key. rewrite dict_get_set_same.
      intros [= <-]. now exists a, o, extra.
    + apply String.eqb_neq in E. rewrite dict_get_set_other by exact E. apply Hd.
  - intros pre idx descr a o extra post -> Hdescr Hlast.
    rewrite for_each_app in Hparse.
    destruct (for_each SnmpCheck.interface_status_row pre Dict.empty) as [mid|];
      cbn [Py.bind for_each] in Hparse; [| discriminate].
    rewrite (@interface_status_row_stores mid idx descr a o extra Hdescr) in Hparse.
    destruct (int_if_isdigit a) as [adm|]; cbn [Py.bind] in Hparse; [| discriminate].
    destruct (int_if_isdigit o) as [op|]; cbn [Py.bind] in Hparse; [| discriminate].
    exists adm, op. split; [reflexivity | split; [reflexivity |]].
    apply (for_each_invariant_in SnmpCheck.interface_status_row
             (fun d => Dict.get d descr = Some (SnmpCheck.mkIfStatus idx adm op))
             post) with (3 := Hparse); [| apply dict_get_set_same].
    intros d row d' Hin Hd Hstep.
    destruct (SectionFacts.interface_status_row_spec _ _ Hstep)
      as [-> | (idx' & descr' & a' & o' & extra' & adm' & op' & -> & _ & _ & _ & ->)];
      [exact Hd |].
    rewrite dict_get_set_other; [exact Hd |].
    exact (@has_description_false post descr idx' descr' a' o' extra' Hlast Hin).
Qed.

Lemma X7_last_row_of_a_description :
  exists adm op,
    int_if_isdigit "1" = Return adm /\ int_if_isdigit "down" = Return op
    /\ Dict.get [("eth0", SnmpCheck.mkIfStatus "7" 1 0)] "eth0"
       = Some (SnmpCheck.mkIfStatus "7" adm op).
Proof.
  apply (proj2 (@X7_status_section_reflects_table
                  [["1"; "eth0"; "1"; "1"]; ["7"; "eth0"; "1"; "down"]]
                  [("eth0", SnmpCheck.mkIfStatus "7" 1 0)] eq_refl)
           [["1"; "eth0"; "1"; "1"]] "7" "eth0" "1" "down" [] []);
    reflexivity.
Defined.

(** ** Discovery and check, on a parsed section *)

Module StatusFacts.

(** Only the value 1 (up) maps to OK. *)
Lemma oper_status_map_OK oper_status :
  fst (SnmpCheck.oper_status_map oper_status) = OK <-> oper_status = 1.
Proof.
  split; [| now intros ->].
  destruct oper_status as [|p|p]; try discriminate.
  destruct p as [[[p|p|]|[p|p|]|]|[[p|p|]|[p|p|]|]|]; cbn;
    (discriminate || reflexivity).
Qed.

Lemma multi_oper_status_map_OK oper_status :
  fst (MultiTable.oper_status_map oper_status) = OK <-> oper_status = 1.
Proof.
  split; [| now intros ->].
  destruct oper_status as [|p|p]; try discriminate.
  destruct p as [[[p|p|]|[p|p|]|]|[[p|p|]|[p|p|]|]|]; cbn;
    (discriminate || reflexivity).
Qed.

Lemma discovered_interface section svc :
  In svc (SnmpCheck.discover_interface_status section) <->
  exists name data,
    In (name, data) section
    /\ SnmpCheck.st_admin_status data = 1
    /\ svc = mkService (Some name) Dict.empty.
Proof.
  unfold SnmpCheck.discover_interface_status. rewrite in_flat_map. split.
  - intros [[name data] [Hin Hsvc]].
    destruct (SnmpCheck.st_admin_status data =? 1) eqn:E; [| destruct Hsvc].
    destruct Hsvc as [<- | []]. apply Z.eqb_eq in E. now exists name, data.
  - intros (name & data & Hin & Hadmin & ->).
    exists (name, data). split; [exact Hin |]. rewrite Hadmin. now left.
Qed.

(** The run of [check_interface_status] on an entity of the section. *)
Lemma check_interface_status_run (VS : Type) item section data (vs : VS) :
  Dict.get section item = Some data ->
  SnmpCheck.check_interface_status item section vs
  = mkRun
      [result_
         (if SnmpCheck.st_admin_status data =? 1
          then fst (SnmpCheck.oper_status_map (SnmpCheck.st_oper_status data))
          else OK)
         (Summary ("Operational status: "
                   ++ snd (SnmpCheck.oper_status_map (SnmpCheck.st_oper_status data))
                   ++ (if SnmpCheck.st_admin_status data =? 1
                       then "" else " (admin down)")))]
      vs (Return tt).
Proof.
  intros Hget. unfold SnmpCheck.check_interface_status. rewrite Hget.
  destruct (SnmpCheck.oper_status_map (SnmpCheck.st_oper_status data)) as [st txt].
  destruct (SnmpCheck.st_admin_status data =? 1); cbn [negb fst snd];
    [| reflexivity].
  replace (txt ++ "") with txt; [reflexivity |].
  clear. induction txt as [|c txt IH]; cbn; [reflexivity | now rewrite <- IH].
Qed.

End StatusFacts.

(** X8. [check_interface_status] on an entity of the section yields exactly
    one result and leaves the value store; the result is OK exactly when the
    interface is administratively down or operationally up. *)
Theorem X8_interface_status_ok_iff_up_or_admin_down :
  forall (VS : Type) (vs : VS) item section data,
    Dict.get section item = Some data ->
    exists st text,
      SnmpCheck.check_interface_status item section vs
      = mkRun [result_ st (Summary text)] vs (Return tt)
      /\ (st = OK <->
          SnmpCheck.st_admin_status data <> 1 \/ SnmpCheck.st_oper_status data = 1).
Proof.
  intros VS vs item section data Hget.
  rewrite (StatusFacts.check_interface_status_run item section vs Hget).
  eexists _, _. split; [reflexivity |].
  destruct (SnmpCheck.st_admin_status data =? 1) eqn:E.
  - apply Z.eqb_eq in E. rewrite StatusFacts.oper_status_map_OK.
    split; [now right | intros [H | H]; [contradiction | exact H]].
  - apply Z.eqb_neq in E. split; [now left | reflexivity].
Qed.

Lemma X8_admin_up_and_down :
  exists st text,
    SnmpCheck.check_interface_status "eth0"
      [("eth0", SnmpCheck.mkIfStatus "1" 1 2)] (tt : unit)
    = mkRun [result_ st (Summary text)] tt (Return tt)
    /\ (st = OK <-> 1 <> 1 \/ 2 = 1).
Proof.
  exact (@X8_interface_status_ok_iff_up_or_admin_down unit tt "eth0"
           [("eth0", SnmpCheck.mkIfStatus "1" 1 2)]
           (SnmpCheck.mkIfStatus "1" 1 2) eq_refl).
Defined.

(** X9. From table to check: every service that [discover_interface_status]
    yields from a section that [parse_interface_status] returned names an
    administratively enabled interface of the section, and the check of that
    item on the section reports the operational status of the interface,
    neither "not found" nor "(admin down)". *)
Theorem X9_discovered_interfaces_are_checked :
  forall (VS : Type) (vs : VS) string_table section svc,
    SnmpCheck.parse_interface_status string_table = Return (Some section) ->
    In svc (SnmpCheck.discover_interface_status section) ->
    exists name data,
      item svc = Some name
      /\ Dict.get section name = Some data
      /\ SnmpCheck.st_admin_status data = 1
      /\ SnmpCheck.check_interface_status name section vs
         = mkRun
             [result_ (fst (SnmpCheck.oper_status_map (SnmpCheck.st_oper_status data)))
                (Summary ("Operational status: "
                          ++ snd (SnmpCheck.oper_status_map
                                    (SnmpCheck.st_oper_status data))))]
             vs (Return tt).
Proof.
  intros VS vs string_table section svc Hparse Hin.
  apply StatusFacts.discovered_interface in Hin.
  destruct Hin as (name & data & Hin & Hadmin & ->).
  destruct (KeyFacts.parse_interface_status_well_keyed _ Hparse) as [Hnd _].
  pose proof (dict_In_get _ _ _ Hnd Hin) as Hget.
  exists name, data. split; [reflexivity | split; [exact Hget | split; [exact Hadmin |]]].
  rewrite (StatusFacts.check_interface_status_run name section vs Hget).
  rewrite Hadmin. cbn [Z.eqb Pos.eqb].
  replace (snd (SnmpCheck.oper_status_map (SnmpCheck.st_oper_status data)) ++ "")
    with (snd (SnmpCheck.oper_status_map (SnmpCheck.st_oper_status data)));
    [reflexivity |].
  generalize (snd (SnmpCheck.oper_status_map (SnmpCheck.st_oper_status data))).
  intros txt. induction txt as [|c txt IH]; cbn; [reflexivity | now rewrite <- IH].
Qed.

Lemma X9_from_table_to_check :
  exists name data,
    item (mkService (Some "eth0") Dict.empty) = Some name
    /\ Dict.get [("eth0", SnmpCheck.mkIfStatus "1" 1 2);
                 ("eth1", SnmpCheck.mkIfStatus "2" 2 2)] name = Some data
    /\ SnmpCheck.st_admin_status data = 1
    /\ SnmpCheck.check_interface_status name
         [("eth0", SnmpCheck.mkIfStatus "1" 1 2);
          ("eth1", SnmpCheck.mkIfStatus "2" 2 2)] (tt : unit)
       = mkRun
           [result_ (fst (SnmpCheck.oper_status_map (SnmpCheck.st_oper_status data)))
              (Summary ("Operational status: "
                        ++ snd (SnmpCheck.oper_status_map
                                  (SnmpCheck.st_oper_status data))))]
           tt (Return tt).
Proof.
  apply (@X9_discovered_interfaces_are_checked unit tt
           [["1"; "eth0"; "1"; "2"]; ["2"; "eth1"; "2"; "2"]]
           [("eth0", SnmpCheck.mkIfStatus "1" 1 2);
            ("eth1", SnmpCheck.mkIfStatus "2" 2 2)]
           (mkService (Some "eth0") Dict.empty) eq_refl).
  left. reflexivity.
Defined.

(** X10. The status block of [check_multi_table_interfaces] for an
    administratively enabled interface: an operational status other than the
    expected one is CRIT, and the result is OK only when the interface is up
    and up is what is expected; an expected status other than up (1) never
    yields OK. *)
Theorem X10_status_block_of_enabled_interface :
  forall (VS : Type) (vs : VS) params interface,
    MultiTable.admin_status interface = 1 ->
    exists st text,
      MultiTable.status_check params interface vs
      = mkRun [result_ st (Summary ("Status: " ++ text))] vs (Return tt)
      /\ (MultiTable.oper_status interface
          <> MultiTable.param (MultiTable.expected_status params) 1 ->
          st = CRIT
          /\ text = snd (MultiTable.oper_status_map (MultiTable.oper_status interface))
                    ++ " (expected: up)")
      /\ (st = OK <->
          MultiTable.oper_status interface = 1
          /\ MultiTable.param (MultiTable.expected_status params) 1 = 1).
Proof.
  intros VS vs params interface Hadmin.
  unfold MultiTable.status_check, MultiTable.is_admin_up. rewrite Hadmin.
  cbn [Z.eqb Pos.eqb negb andb].
  pose proof (StatusFacts.multi_oper_status_map_OK (MultiTable.oper_status interface))
    as Hmap.
  destruct (MultiTable.oper_status_map (MultiTable.oper_status interface))
    as [st txt]. cbn [fst snd] in *.
  rewrite andb_true_r.
  destruct (MultiTable.oper_status interface
            =? MultiTable.param (MultiTable.expected_status params) 1) eqn:E;
    cbn [negb]; eexists _, _; (split; [reflexivity |]).
  - apply Z.eqb_eq in E. split; [intros Hne; contradiction |].
    rewrite Hmap. split; [intros H1; split; [exact H1 | now rewrite <- E] | now intros [H1 _]].
  - apply Z.eqb_neq in E. split; [intros _; now split |].
    split; [discriminate | intros [H1 H2]; exfalso; apply E; now rewrite H1, H2].
Qed.

Lemma X10_expected_down_is_never_ok :
  exists st text,
    MultiTable.status_check (MultiTable.mkParams (Some 2) None None None)
      (MultiTable.mkInterfaceData "1" "eth0" "" "" 6 1000 1 2 0 0 0 0) (tt : unit)
    = mkRun [result_ st (Summary ("Status: " ++ text))] tt (Return tt)
    /\ (2 <> 2 -> st = CRIT /\ text = "down" ++ " (expected: up)")
    /\ (st = OK <-> 2 = 1 /\ 2 = 1).
Proof.
  exact (@X10_status_block_of_enabled_interface unit tt
           (MultiTable.mkParams (Some 2) None None None)
           (MultiTable.mkInterfaceData "1" "eth0" "" "" 6 1000 1 2 0 0 0 0) eq_refl).
Defined.

(** X11. Discovery and check agree: a service discovered from a section
    names an entity of the section with a physical interface type, and with
    the speed that discovery recorded as [discovered_speed] the speed block
    of the check on the same section never reports a speed change: it yields
    the OK speed notice, or nothing when the speed is not positive. *)
Theorem X11_discovered_speed_matches_at_check :
  forall (VS : Type) (api : Api VS) (vs : VS) section svc params,
    NoDup (Dict.keys section) ->
    In svc (MultiTable.discover_multi_table_interfaces section) ->
    MultiTable.discovered_speed params
    = Dict.get (parameters svc) "discovered_speed" ->
    exists name interface,
      item svc = Some name
      /\ Dict.get section name = Some interface
      /\ In (MultiTable.if_type interface) MultiTable.physical_if_types
      /\ MultiTable.speed_check api params interface vs
         = mkRun
             (if 0 <? MultiTable.speed interface
              then [result_ OK
                      (Notice ("Speed: "
                               ++ networkbandwidth api (Int (MultiTable.speed interface))))]
              else [])
             vs (Return tt).
Proof.
  intros VS api vs section svc params Hnd Hin Hparams.
  apply DiscoveryFacts.discovered_service in Hin.
  destruct Hin as (name & interface & Hin & Hphys & ->).
  exists name, interface.
  split; [reflexivity | split; [now apply dict_In_get | split]].
  - apply existsb_exists in Hphys. destruct Hphys as (t & Ht & Heq).
    apply Z.eqb_eq in Heq. now rewrite Heq.
  - cbn in Hparams. unfold MultiTable.speed_check. rewrite Hparams.
    cbn [MultiTable.param]. rewrite Z.eqb_refl. cbn [negb].
    rewrite andb_false_r. destruct (0 <? MultiTable.speed interface); reflexivity.
Qed.

Lemma X11_no_speed_change_after_discovery :
  exists name interface,
    item (mkService (Some "eth0")
            [("discovered_speed", 1000); ("discovered_oper_status", 1)]) = Some name
    /\ Dict.get [("eth0", MultiTable.mkInterfaceData "1" "eth0" "" "" 6 1000 1 1 0 0 0 0)]
         name = Some interface
    /\ In (MultiTable.if_type interface) MultiTable.physical_if_types
    /\ MultiTable.speed_check Sample.api
         (MultiTable.mkParams None (Some 1000) None None) interface ([] : Sample.store)
       = mkRun
           (if 0 <? MultiTable.speed interface
            then [result_ OK
                    (Notice ("Speed: "
                             ++ networkbandwidth Sample.api
                                  (Int (MultiTable.speed interface))))]
            else [])
           [] (Return tt).
Proof.
  apply (@X11_discovered_speed_matches_at_check Sample.store Sample.api []
           [("eth0", MultiTable.mkInterfaceData "1" "eth0" "" "" 6 1000 1 1 0 0 0 0)]
           (mkService (Some "eth0")
              [("discovered_speed", 1000); ("discovered_oper_status", 1)])
           (MultiTable.mkParams None (Some 1000) None None)).
  - constructor; [intros [] | constructor].
  - left. reflexivity.
  - reflexivity.
Defined.



(** ** Threshold evaluation: NaN and monotonicity *)

Module OrderFacts.




Lemma SFleb_trans x y z :
  SFleb x y = true -> SFleb y z = true -> SFleb x z = true.
Proof.
  unfold SFleb, SFcompare.
  destruct x as [sx|sx| |sx mx ex], y as [sy|sy| |sy my ey], z as [sz|sz| |sz mz ez];
    try discriminate; try reflexivity;
    try (destruct sx, sy, sz; (discriminate || reflexivity)).
  change (Pos.compare_cont Eq mx my) with (Pos.compare mx my).
  change (Pos.compare_cont Eq my mz) with (Pos.compare my mz).
  change (Pos.compare_cont Eq mx mz) with (Pos.compare mx mz).
  destruct sx, sy, sz; try discriminate; try reflexivity;
    destruct (Z.compare_spec ex ey), (Z.compare_spec ey ez), (Z.compare_spec ex ez);
    try discriminate; try reflexivity; try lia;
    destruct (Pos.compare_spec mx my), (Pos.compare_spec my mz),
      (Pos.compare_spec mx mz);
    cbn; try discriminate; try reflexivity; try lia.
Qed.

Lemma leb_trans x y z :
  (x <=? y)%float = true -> (y <=? z)%float = true -> (x <=? z)%float = true.
Proof. rewrite !leb_spec. apply SFleb_trans. Qed.

End OrderFacts.



(** X14. [check_thresholds] is monotone in the value: with the bounds
    fixed (present or not, in any order), a larger value never gets a better
    status in the upper direction, and a smaller value never gets a better
    status in the lower direction. *)
Theorem X14_thresholds_monotone :
  forall value value' warning critical,
    (value <=? value')%float = true ->
    ActiveCheck.check_thresholds value warning critical false
    <= ActiveCheck.check_thresholds value' warning critical false
    /\ ActiveCheck.check_thresholds value' warning critical true
       <= ActiveCheck.check_thresholds value warning critical true.
Proof.
  intros value value' warning critical Hle.
  unfold ActiveCheck.check_thresholds, ActiveCheck.is_not_None_and, ActiveCheck.ge,
    ActiveCheck.OK, ActiveCheck.WARNING, ActiveCheck.CRITICAL.
  assert (Hup : forall b, (b <=? value)%float = true -> (b <=? value')%float = true).
  { intros b Hb. exact (OrderFacts.leb_trans Hb Hle). }
  assert (Hdown : forall b, (value' <=? b)%float = true -> (value <=? b)%float = true).
  { intros b Hb. exact (OrderFacts.leb_trans Hle Hb). }
  split.
  - destruct critical as [c|], warning as [w|];
      try (destruct (c <=? value)%float eqn:Ec; [rewrite (Hup c Ec); lia |]);
      try (destruct (w <=? value)%float eqn:Ew; [rewrite (Hup w Ew) |]);
      repeat match goal with
             | |- context [if ?b then _ else _] => destruct b
             end; lia.
  - destruct critical as [c|], warning as [w|];
      try (destruct (value' <=? c)%float eqn:Ec; [rewrite (Hdown c Ec); lia |]);
      try (destruct (value' <=? w)%float eqn:Ew; [rewrite (Hdown w Ew) |]);
      repeat match goal with
             | |- context [if ?b then _ else _] => destruct b
             end; lia.
Qed.

Lemma X14_slower_response_is_not_better :
  ActiveCheck.check_thresholds 0.5%float (Some 1%float) (Some 5%float) false
  <= ActiveCheck.check_thresholds 2%float (Some 1%float) (Some 5%float) false
  /\ ActiveCheck.check_thresholds 2%float (Some 1%float) (Some 5%float) true
     <= ActiveCheck.check_thresholds 0.5%float (Some 1%float) (Some 5%float) true.
Proof.
  apply (@X14_thresholds_monotone 0.5%float 2%float (Some 1%float) (Some 5%float)).
  reflexivity.
Defined.

(** ** Checks without an item, from the table *)

Lemma append_empty_r (s : string) : s ++ "" = s.
Proof. induction s as [|c s IH]; cbn; [reflexivity | now rewrite IH]. Qed.

(** X15. Device setup, from the table to the result: one result is yielded
    and the value store is left; it is UNKNOWN when there is no first row or
    the row is empty, OK when the first three columns of the row are present
    and non-empty, WARN otherwise (a short row counts as missing fields, it
    is no error).  The service is discovered unless the result is
    UNKNOWN. *)
Theorem X15_device_setup_from_table :
  forall (VS : Type) (vs : VS) string_table,
    exists st text,
      SnmpCheck.check_device_setup (SnmpCheck.parse_device_setup string_table) vs
      = mkRun [result_ st (Summary text)] vs (Return tt)
      /\ st = match hd [] string_table with
              | [] => UNKNOWN
              | row =>
                  if truthy (nth 0 row "") && truthy (nth 1 row "")
                     && truthy (nth 2 row "")
                  then OK else WARN
              end
      /\ (SnmpCheck.discover_device_setup (SnmpCheck.parse_device_setup string_table)
          = [] <-> st = UNKNOWN).
Proof.
  intros VS vs string_table.
  destruct string_table as [|[|c row] rest].
  - eexists _, _. cbn. repeat split; reflexivity.
  - eexists _, _. cbn. repeat split; reflexivity.
  - unfold SnmpCheck.parse_device_setup, SnmpCheck.check_device_setup,
      SnmpCheck.discover_device_setup.
    cbn [hd nth SnmpCheck.contact SnmpCheck.name SnmpCheck.location flat_map fst snd].
    destruct (truthy c), (truthy (nth 0 row "")), (truthy (nth 1 row ""));
      cbn [app andb]; eexists _, _;
      (split; [reflexivity | split; [reflexivity | split; discriminate]]).
Qed.

(** X16. The simple agent check, from the section to the result: it is OK
    with the first value of the first line when that value is there and
    non-empty, and UNKNOWN "No data" otherwise; a section whose first line is
    empty is discovered all the same. *)
Theorem X16_simple_check_from_table :
  forall (VS : Type) (vs : VS) string_table,
    (forall v row rest,
        string_table = (v :: row) :: rest -> truthy v = true ->
        AgentSimple.check_mycheck (AgentSimple.parse_mycheck string_table) vs
        = mkRun [result_ OK (Summary ("Value: " ++ v))] vs (Return tt))
    /\ (truthy (hd "" (hd [] string_table)) = false ->
        AgentSimple.check_mycheck (AgentSimple.parse_mycheck string_table) vs
        = mkRun [result_ UNKNOWN (Summary "No data")] vs (Return tt))
    /\ (AgentSimple.discover_mycheck (AgentSimple.parse_mycheck string_table) = []
        <-> string_table = []).
Proof.
  intros VS vs string_table. split; [| split].
  - intros v row rest -> Hv. unfold AgentSimple.parse_mycheck, AgentSimple.check_mycheck.
    cbn [AgentSimple.value]. now rewrite Hv.
  - destruct string_table as [|[|v row] rest]; cbn; try reflexivity.
    now intros ->.
  - destruct string_table as [|[|v row] rest]; cbn; split;
      (reflexivity || discriminate).
Qed.

Lemma X16_value_of_first_line :
  AgentSimple.check_mycheck (AgentSimple.parse_mycheck [["42"; "x"]; ["7"]]) (tt : unit)
  = mkRun [result_ OK (Summary ("Value: " ++ "42"))] tt (Return tt).
Proof.
  apply (proj1 (X16_simple_check_from_table tt [["42"; "x"]; ["7"]]) "42" ["x"] [["7"]]);
    reflexivity.
Defined.

(** ** The guard [int(s) if s.isdigit() else 0] *)

Module GuardFacts.

Ltac bool_to_prop :=
  repeat match goal with
         | H : _ && _ = true |- _ => apply andb_prop in H; destruct H
         | H : _ || _ = true |- _ => apply orb_prop in H; destruct H
         | H : (_ <=? _)%N = true |- _ => apply N.leb_le in H
         | H : (_ <? _)%N = true |- _ => apply N.ltb_lt in H
         | H : (_ =? _)%N = true |- _ => apply N.eqb_eq in H
         end.

Lemma decimal_not_space c : is_decimal c = true -> is_space c = false.
Proof.
  unfold is_decimal, is_space. intros H. bool_to_prop.
  apply not_true_iff_false. intros Hs. bool_to_prop; lia.
Qed.

Lemma digit_char_not_space c : is_digit_char c = true -> is_space c = false.
Proof.
  unfold is_digit_char, is_decimal, is_space. intros H.
  apply not_true_iff_false. intros Hs. bool_to_prop; lia.
Qed.

Lemma digit_char_not_sign c :
  is_digit_char c = true -> (code c =? 43)%N = false /\ (code c =? 45)%N = false.
Proof.
  unfold is_digit_char, is_decimal. intros H.
  split; apply N.eqb_neq; intros Heq; bool_to_prop; lia.
Qed.

Lemma digit_char_not_underscore c : is_digit_char c = true -> is_underscore c = false.
Proof.
  unfold is_digit_char, is_decimal, is_underscore. intros H.
  apply N.eqb_neq. intros Heq. bool_to_prop; lia.
Qed.

(** An ASCII character that [isdigit] accepts is a decimal digit. *)
Lemma ascii_digit_char_decimal c :
  (code c <? 128)%N = true -> is_digit_char c = true -> is_decimal c = true.
Proof.
  unfold is_digit_char. intros Hascii H.
  destruct (is_decimal c); [reflexivity |]. cbn in H. bool_to_prop; lia.
Qed.

Lemma digit_value_nonneg c : is_decimal c = true -> 0 <= digit_value c.
Proof.
  unfold is_decimal, digit_value. intros H. bool_to_prop. lia.
Qed.

(** The digit loop on decimal digits reads them all. *)
Lemma scan_digits_decimal s acc digits :
  forallb is_decimal s = true ->
  exists v,
    scan_digits s false acc digits = Some (v, (digits + N.of_nat (List.length s))%N, []).
Proof.
  revert acc digits. induction s as [|c s IH]; intros acc digits Hall.
  - exists acc. cbn. now rewrite N.add_0_r.
  - cbn [forallb] in Hall. apply andb_prop in Hall as [Hc Hs].
    cbn [scan_digits]. rewrite Hc.
    destruct (IH (10 * acc + digit_value c) (N.succ digits) Hs) as [v Hv].
    exists v. rewrite Hv. do 3 f_equal. cbn [List.length]. lia.
Qed.

(** The digit loop never yields a negative value. *)
Lemma scan_digits_nonneg s prev acc digits v d rest :
  0 <= acc -> scan_digits s prev acc digits = Some (v, d, rest) -> 0 <= v.
Proof.
  revert prev acc digits. induction s as [|c s IH]; intros prev acc digits Hacc.
  - cbn. destruct prev; [discriminate | now intros [= <- _ _]].
  - cbn [scan_digits]. destruct (is_decimal c) eqn:Hc.
    + apply IH. pose proof (digit_value_nonneg c Hc). lia.
    + destruct (is_underscore c).
      * destruct prev; [discriminate | now apply IH].
      * destruct prev; [discriminate | now intros [= <- _ _]].
Qed.

Lemma length_list_ascii s :
  List.length (list_ascii_of_string s) = String.length s.
Proof. induction s as [|c s IH]; cbn; [reflexivity | now rewrite IH]. Qed.

(** [int()] reads a non-empty string of decimal digits within the limit. *)
Lemma parse_int_decimal s :
  truthy s = true ->
  forallb is_decimal (list_ascii_of_string s) = true ->
  short_literal s = true ->
  exists z, parse_int s = Some z.
Proof.
  intros Hs Hall Hshort. unfold parse_int.
  destruct s as [|c s]; [discriminate |].
  cbn [list_ascii_of_string] in *.
  pose proof Hall as Hall'. cbn [forallb] in Hall'.
  apply andb_prop in Hall' as [Hc _].
  assert (Hd : is_digit_char c = true) by (unfold is_digit_char; now rewrite Hc).
  cbn [skip_spaces]. rewrite (decimal_not_space c Hc).
  unfold read_sign. destruct (digit_char_not_sign c Hd) as [-> ->].
  rewrite (digit_char_not_underscore c Hd).
  destruct (scan_digits_decimal (c :: list_ascii_of_string s) 0 0%N Hall) as [v ->].
  rewrite N.add_0_l.
  replace (N.of_nat (List.length (c :: list_ascii_of_string s)) =? 0)%N with false
    by (symmetry; apply N.eqb_neq; cbn [List.length]; lia).
  unfold short_literal in Hshort. apply N.leb_le in Hshort.
  replace (int_max_str_digits <? N.of_nat (List.length (c :: list_ascii_of_string s)))%N
    with false.
  - cbn [skip_spaces]. now exists (1 * v).
  - symmetry. apply N.ltb_ge. cbn [List.length String.length] in *.
    rewrite length_list_ascii. exact Hshort.
Qed.

Lemma int_if_isdigit_plain s :
  ascii_only s = true -> short_literal s = true ->
  returns (int_if_isdigit s) = true.
Proof.
  intros Hascii Hshort. unfold int_if_isdigit, int.
  destruct (isdigit s) eqn:Hdigit; [| reflexivity].
  unfold isdigit in Hdigit. apply andb_prop in Hdigit as [Hs Hall].
  assert (Hdec : forallb is_decimal (list_ascii_of_string s) = true).
  { unfold ascii_only in Hascii. rewrite forallb_forall in *.
    intros c Hin. apply ascii_digit_char_decimal; [now apply Hascii | now apply Hall]. }
  destruct (parse_int_decimal s Hs Hdec Hshort) as [z ->]. reflexivity.
Qed.

(** Whatever the guard returns is not negative. *)
Lemma int_if_isdigit_nonneg s z : int_if_isdigit s = Return z -> 0 <= z.
Proof.
  unfold int_if_isdigit, int.
  destruct (isdigit s) eqn:Hdigit; [| intros [= <-]; lia].
  unfold isdigit in Hdigit. apply andb_prop in Hdigit as [Hs Hall].
  destruct (parse_int s) as [v|] eqn:Hparse; [| discriminate].
  intros [= <-]. unfold parse_int in Hparse.
  destruct s as [|c s]; [discriminate |].
  cbn [list_ascii_of_string] in *. cbn [forallb] in Hall.
  apply andb_prop in Hall as [Hc _].
  cbn [skip_spaces] in Hparse. rewrite (digit_char_not_space c Hc) in Hparse.
  unfold read_sign in Hparse. destruct (digit_char_not_sign c Hc) as [E1 E2].
  rewrite E1, E2 in Hparse. rewrite (digit_char_not_underscore c Hc) in Hparse.
  destruct (scan_digits (c :: list_ascii_of_string s) false 0 0%N)
    as [[[w d] rest]|] eqn:Hscan; [| discriminate].
  destruct (d =? 0)%N; [discriminate |].
  destruct (int_max_str_digits <? d)%N; [discriminate |].
  destruct (skip_spaces rest); [| discriminate].
  injection Hparse as <-.
  pose proof (@scan_digits_nonneg _ _ _ _ _ _ _ (Z.le_refl 0) Hscan).
  now destruct w.
Qed.

End GuardFacts.

(** X17. The guard [int(s) if s.isdigit() else 0] of the status fields: on
    an ASCII field within the interpreter's limit on integer literals it
    never raises, so [parse_interface_status] returns for every table whose
    status fields are such; and what it returns is never negative, so no
    parsed status is. *)
Theorem X17_isdigit_guard_on_plain_fields :
  (forall s,
      ascii_only s = true -> short_literal s = true ->
      exists z, int_if_isdigit s = Return z /\ 0 <= z)
  /\ (forall string_table,
        status_fields_plain string_table = true ->
        returns (SnmpCheck.parse_interface_status string_table) = true)
  /\ (forall string_table section key e,
        SnmpCheck.parse_interface_status string_table = Return (Some section) ->
        Dict.get section key = Some e ->
        0 <= SnmpCheck.st_admin_status e /\ 0 <= SnmpCheck.st_oper_status e).
Proof.
  split; [| split].
  - intros s Hascii Hshort.
    pose proof (GuardFacts.int_if_isdigit_plain s Hascii Hshort) as Hret.
    destruct (int_if_isdigit s) as [z|] eqn:E; [| discriminate].
    exists z. split; [reflexivity | exact (GuardFacts.int_if_isdigit_nonneg s E)].
  - intros string_table Hplain. unfold SnmpCheck.parse_interface_status.
    destruct string_table as [|row rows]; [reflexivity |].
    destruct (for_each_returns SnmpCheck.interface_status_row (row :: rows))
      with (acc := @Dict.empty SnmpCheck.IfStatus) as [res ->]; [| reflexivity].
    intros acc r Hin. unfold status_fields_plain in Hplain.
    rewrite forallb_forall in Hplain. specialize (Hplain r Hin).
    unfold SnmpCheck.interface_status_row.
    destruct r as [|idx [|descr [|a [|o extra]]]]; try reflexivity.
    destruct (truthy descr); [| reflexivity]. cbn [negb].
    apply andb_prop in Hplain as [Hplain Ho2]. apply andb_prop in Hplain as [Hplain Ho1].
    apply andb_prop in Hplain as [Ha1 Ha2].
    pose proof (GuardFacts.int_if_isdigit_plain a Ha1 Ha2) as Ha.
    pose proof (GuardFacts.int_if_isdigit_plain o Ho1 Ho2) as Ho.
    destruct (int_if_isdigit a); [| discriminate].
    destruct (int_if_isdigit o); [| discriminate]. reflexivity.
  - intros string_table section key e Hparse Hget.
    apply SectionFacts.table_parse_loop in Hparse.
    revert key e Hget.
    apply (for_each_invariant SnmpCheck.interface_status_row
             (fun d => forall key e,
                  Dict.get d key = Some e ->
                  0 <= SnmpCheck.st_admin_status e /\ 0 <= SnmpCheck.st_oper_status e))
      with (3 := Hparse); [| discriminate].
    intros d row d' Hd Hstep key e.
    destruct (SectionFacts.interface_status_row_spec _ _ Hstep)
      as [-> | (idx & descr & a & o & extra & adm & op & _ & _ & Ha & Ho & ->)];
      [apply Hd |].
    destruct (String.eqb descr key) eqn:E.
    + apply String.eqb_eq in E. subst key. rewrite dict_get_set_same.
      intros [= <-]. cbn.
      split; [exact (GuardFacts.int_if_isdigit_nonneg a Ha)
             | exact (GuardFacts.int_if_isdigit_nonneg o Ho)].
    + apply String.eqb_neq in E. rewrite dict_get_set_other by exact E. apply Hd.
Qed.

Lemma X17_plain_status_table_parses :
  returns (SnmpCheck.parse_interface_status
             [["1"; "eth0"; "1"; "up"]; ["2"; "eth1"; "-1"; "007"]]) = true.
Proof.
  apply (proj1 (proj2 X17_isdigit_guard_on_plain_fields)
           [["1"; "eth0"; "1"; "up"]; ["2"; "eth1"; "-1"; "007"]]).
  reflexivity.
Defined.

(** ** Correlation of the three tables by index *)

Module CorrelationFacts.
Import MultiTable.

Lemma has_index_cons_false min_cols row rows idx :
  has_index min_cols (row :: rows) idx = false ->
  ((min_cols <=? List.length row)%nat && String.eqb (hd "" row) idx = false)
  /\ has_index min_cols rows idx = false.
Proof. cbn [has_index existsb]. apply orb_false_elim. Qed.

(** Rows of other indices leave the entry of [idx] in the lookup. *)
Lemma ifx_lookup_kept ifx_table idx d :
  has_index 3 ifx_table idx = false ->
  Dict.get (fold_left ifx_row ifx_table d) idx = Dict.get d idx.
Proof.
  revert d. induction ifx_table as [|row rows IH]; intros d Habs; [reflexivity |].
  apply has_index_cons_false in Habs as [Hrow Hrows].
  cbn [fold_left]. rewrite (IH _ Hrows).
  destruct row as [|i [|n [|a extra]]]; try reflexivity.
  cbn in Hrow. cbn [ifx_row]. apply dict_get_set_other.
  intros ->. now rewrite String.eqb_refl in Hrow.
Qed.

(** The lookup holds, for an index, the name and alias of the last ifXTable
    row of that index. *)
Lemma ifx_by_index_last pre idx n a extra post :
  has_index 3 post idx = false ->
  Dict.get (ifx_by_index (pre ++ (idx :: n :: a :: extra) :: post)) idx
  = Some (mkIfxData n a).
Proof.
  intros Hlast. unfold ifx_by_index. rewrite fold_left_app. cbn [fold_left].
  rewrite (ifx_lookup_kept _ _ _ Hlast). cbn [ifx_row]. apply dict_get_set_same.
Qed.

Lemma counter_lookup_kept if_counters idx d counters :
  for_each counter_row if_counters d = Return counters ->
  has_index 5 if_counters idx = false ->
  Dict.get counters idx = Dict.get d idx.
Proof.
  revert d. induction if_counters as [|row rows IH]; intros d Hrun Habs.
  - cbn in Hrun. now injection Hrun as <-.
  - apply has_index_cons_false in Habs as [Hrow Hrows].
    cbn [for_each] in Hrun.
    destruct (counter_row d row) as [d'|] eqn:Hstep; cbn [Py.bind] in Hrun;
      [| discriminate].
    rewrite (IH _ Hrun Hrows).
    destruct (MultiFacts.counter_row_spec _ _ Hstep)
      as [-> | (i & r1 & r2 & r3 & r4 & extra & data & -> & ->)]; [reflexivity |].
    cbn in Hrow. apply dict_get_set_other.
    intros ->. now rewrite String.eqb_refl in Hrow.
Qed.

(** The lookup holds, for an index, the converted counters of the last
    counter row of that index. *)
Lemma counters_by_index_last pre idx r1 r2 r3 r4 extra post counters :
  counters_by_index (pre ++ (idx :: r1 :: r2 :: r3 :: r4 :: extra) :: post)
  = Return counters ->
  has_index 5 post idx = false ->
  exists a b c d,
    int_if_nonempty r1 = Return a /\ int_if_nonempty r2 = Return b
    /\ int_if_nonempty r3 = Return c /\ int_if_nonempty r4 = Return d
    /\ Dict.get counters idx = Some (mkCounterData a b c d).
Proof.
  unfold counters_by_index. rewrite for_each_app. intros Hrun Hlast.
  destruct (for_each counter_row pre Dict.empty) as [mid|]; cbn [Py.bind for_each] in Hrun;
    [| discriminate].
  unfold counter_row at 1 in Hrun.
  destruct (int_if_nonempty r1) as [a|]; cbn [Py.bind] in Hrun; [| discriminate].
  destruct (int_if_nonempty r2) as [b|]; cbn [Py.bind] in Hrun; [| discriminate].
  destruct (int_if_nonempty r3) as [c|]; cbn [Py.bind] in Hrun; [| discriminate].
  destruct (int_if_nonempty r4) as [d|]; cbn [Py.bind] in Hrun; [| discriminate].
  exists a, b, c, d. repeat (split; [reflexivity |]).
  rewrite (counter_lookup_kept _ _ _ Hrun Hlast). apply dict_get_set_same.
Qed.

(** Every entity of the merged mapping was built from a row of the
    ifTable. *)
Lemma merged_entities_built ifx counters if_table section :
  for_each (merge_row ifx counters) if_table Dict.empty = Return section ->
  forall key e,
    Dict.get section key = Some e ->
    exists row, In row if_table /\ interface_of_row ifx counters row = Return (Some e).
Proof.
  intros Hmerged.
  apply (for_each_invariant_in (merge_row ifx counters)
           (fun d => forall key e,
                Dict.get d key = Some e ->
                exists row,
                  In row if_table /\ interface_of_row ifx counters row = Return (Some e))
           if_table) with (3 := Hmerged); [| discriminate].
  intros d row d' Hin Hd Hstep key e.
  destruct (MultiFacts.merge_row_spec _ _ _ _ Hstep) as [[_ ->] | (e' & He' & ->)];
    [apply Hd |].
  destruct (String.eqb (display_name e') key) eqn:E.
  - apply String.eqb_eq in E. subst key. rewrite dict_get_set_same.
    intros [= <-]. now exists row.
  - apply String.eqb_neq in E. rewrite dict_get_set_other by exact E. apply Hd.
Qed.

End CorrelationFacts.

(** X18. [parse_multi_table_interfaces] correlates the tables by index, not
    by position: every entity of the section comes from an ifTable row with
    its index and description; its name and alias are those of the last
    ifXTable row with its index, and its counters the converted fields of the
    last counter row with its index (the empty string and zero when no row
    has it). *)
Theorem X18_tables_correlated_by_index :
  forall if_table ifx_table if_counters rest section key e,
    MultiTable.parse_multi_table_interfaces
      (if_table :: ifx_table :: if_counters :: rest) = Return (Some section) ->
    Dict.get section key = Some e ->
    (exists ty sp adm op extra,
        In (MultiTable.index e :: MultiTable.descr e :: ty :: sp :: adm :: op :: extra)
           if_table)
    /\ (has_index 3 ifx_table (MultiTable.index e) = false ->
        MultiTable.name e = "" /\ MultiTable.alias e = "")
    /\ (forall pre n a extra post,
          ifx_table = (pre ++ (MultiTable.index e :: n :: a :: extra) :: post)%list ->
          has_index 3 post (MultiTable.index e) = false ->
          MultiTable.name e = n /\ MultiTable.alias e = a)
    /\ (has_index 5 if_counters (MultiTable.index e) = false ->
        MultiTable.in_octets e = 0 /\ MultiTable.out_octets e = 0
        /\ MultiTable.in_errors e = 0 /\ MultiTable.out_errors e = 0)
    /\ (forall pre r1 r2 r3 r4 extra post,
          if_counters
          = (pre ++ (MultiTable.index e :: r1 :: r2 :: r3 :: r4 :: extra) :: post)%list ->
          has_index 5 post (MultiTable.index e) = false ->
          int_if_nonempty r1 = Return (MultiTable.in_octets e)
          /\ int_if_nonempty r2 = Return (MultiTable.out_octets e)
          /\ int_if_nonempty r3 = Return (MultiTable.in_errors e)
          /\ int_if_nonempty r4 = Return (MultiTable.out_errors e)).
Proof.
  intros if_table ifx_table if_counters rest section key e Hparse Hget.
  destruct (MultiFacts.parse_multi_table_interfaces_spec _ _ _ _ Hparse)
    as (counters & Hc & Hmerged).
  destruct (CorrelationFacts.merged_entities_built _ _ _ Hmerged _ Hget)
    as (row & Hin & Hbuilt).
  destruct (SectionFacts.interface_of_row_spec _ _ _ Hbuilt)
    as (idx & descr & ty & sp & adm & op & extra & -> & _ & Hidx & Hdescr & _ & _
        & _ & _ & Hname & Halias & Hio & Hoo & Hie & Hoe).
  subst idx descr.
  split; [now exists ty, sp, adm, op, extra |].
  split; [| split; [| split]].
  - intros Habsent.
    rewrite Hname, Halias, (MultiFacts.ifx_by_index_absent _ _ Habsent).
    now split.
  - intros pre n a extra' post -> Hlast.
    rewrite Hname, Halias, (@CorrelationFacts.ifx_by_index_last pre (MultiTable.index e) n a extra' post Hlast).
    now split.
  - intros Habsent.
    rewrite Hio, Hoo, Hie, Hoe, (MultiFacts.counters_by_index_absent _ _ Hc Habsent).
    repeat split.
  - intros pre r1 r2 r3 r4 extra' post -> Hlast.
    destruct (@CorrelationFacts.counters_by_index_last pre (MultiTable.index e) r1 r2 r3 r4 extra' post counters Hc Hlast)
      as (a & b & c & d & -> & -> & -> & -> & Hlookup).
    rewrite Hio, Hoo, Hie, Hoe, Hlookup. repeat split.
Qed.

(** The auxiliary rows come in another order than the ifTable rows. *)
Lemma X18_rows_in_another_order :
  MultiTable.name (MultiTable.mkInterfaceData "2" "eth1" "ge-0/1" "srv" 6 100 1 1 7 8 0 1)
  = "ge-0/1"
  /\ MultiTable.alias (MultiTable.mkInterfaceData "2" "eth1" "ge-0/1" "srv" 6 100 1 1 7 8 0 1)
     = "srv".
Proof.
  apply (proj1 (proj2 (proj2 (@X18_tables_correlated_by_index
           [["1"; "eth0"; "6"; "1000"; "1"; "1"]; ["2"; "eth1"; "6"; "100"; "1"; "1"]]
           [["2"; "ge-0/1"; "srv"]; ["1"; "ge-0/0"; "uplink"]]
           [["2"; "7"; "8"; "0"; "1"]; ["1"; "100"; "200"; "0"; "0"]]
           []
           [("ge-0/0", MultiTable.mkInterfaceData "1" "eth0" "ge-0/0" "uplink" 6 1000 1 1 100 200 0 0);
            ("ge-0/1", MultiTable.mkInterfaceData "2" "eth1" "ge-0/1" "srv" 6 100 1 1 7 8 0 1)]
           "ge-0/1"
           (MultiTable.mkInterfaceData "2" "eth1" "ge-0/1" "srv" 6 100 1 1 7 8 0 1)
           eq_refl eq_refl)))
           [] "ge-0/1" "srv" [] [["1"; "ge-0/0"; "uplink"]]);
    reflexivity.
Defined.

(** ** CPU and memory (snmp_check.py, example 3) *)

Module ResourceFacts.
Import SystemResources.

(** A column that is not there converts like an empty one. *)
Lemma int_at_nth row i : int_at row i = int_if_nonempty (nth i row "").
Proof.
  unfold int_at. destruct (nth_error row i) as [s|] eqn:E.
  - now rewrite (nth_error_nth row i "" E).
  - apply nth_error_None in E. now rewrite (nth_overflow row "" E).
Qed.

Lemma int_if_nonempty_outcome s :
  (exists z, int_if_nonempty s = Return z) \/ int_if_nonempty s = Raise ValueError.
Proof.
  unfold int_if_nonempty, int. destruct (truthy s); [| left; now exists 0].
  destruct (parse_int s) as [z|]; [left; now exists z | now right].
Qed.

(** The parse of a table with a non-empty first row, from the conversions
    of its first three columns. *)
Lemma parse_system_resources_row parse_float r0 row rest :
  parse_system_resources parse_float ((r0 :: row) :: rest)
  = match (if truthy r0 then parse_float r0 else Some 0%float),
          int_if_nonempty (nth 0 row ""), int_if_nonempty (nth 1 row "") with
    | Some c, Return u, Return t => Return (Some (mkResources c u t))
    | _, _, _ => Return None
    end.
Proof.
  unfold parse_system_resources, float_. rewrite !int_at_nth. cbn [nth].
  destruct (int_if_nonempty_outcome (nth 0 row "")) as [[u ->] | ->],
    (int_if_nonempty_outcome (nth 1 row "")) as [[t ->] | ->];
    (destruct (truthy r0); [destruct (parse_float r0) |]); reflexivity.
Qed.

End ResourceFacts.

(** X19. [parse_system_resources] never raises.  For a non-empty first row
    it returns the section of the three converted columns when they all
    convert (an empty or missing column counts as zero), and [None] as soon
    as one does not; without a first row, or with an empty one, it returns
    [None].  A first row without a third column has memory total zero, and
    [discover_system_resources] yields a service exactly for a positive
    memory total, so none for such a row. *)
Theorem X19_system_resources_parse_and_discovery :
  forall (parse_float : string -> option float) string_table,
    returns (SystemResources.parse_system_resources parse_float string_table) = true
    /\ (hd [] string_table = [] ->
        SystemResources.parse_system_resources parse_float string_table = Return None)
    /\ (forall r0 row rest,
          string_table = (r0 :: row) :: rest ->
          (forall c u t,
              (if truthy r0 then parse_float r0 else Some 0%float) = Some c ->
              int_if_nonempty (nth 0 row "") = Return u ->
              int_if_nonempty (nth 1 row "") = Return t ->
              SystemResources.parse_system_resources parse_float string_table
              = Return (Some (SystemResources.mkResources c u t)))
          /\ ((if truthy r0 then parse_float r0 else Some 0%float) = None
              \/ returns (int_if_nonempty (nth 0 row "")) = false
              \/ returns (int_if_nonempty (nth 1 row "")) = false ->
              SystemResources.parse_system_resources parse_float string_table
              = Return None)
          /\ ((List.length row < 2)%nat ->
              forall r,
                SystemResources.parse_system_resources parse_float string_table
                = Return (Some r) ->
                SystemResources.memory_total r = 0
                /\ SystemResources.discover_system_resources (Some r) = []))
    /\ (forall r,
          SystemResources.discover_system_resources (Some r) = []
          <-> SystemResources.memory_total r <= 0).
Proof.
  intros parse_float string_table. split; [| split; [| split]].
  - destruct string_table as [|[|r0 row] rest]; try reflexivity.
    rewrite ResourceFacts.parse_system_resources_row.
    destruct (if truthy r0 then parse_float r0 else Some 0%float);
      [| reflexivity].
    destruct (int_if_nonempty (nth 0 row "")); [| reflexivity].
    destruct (int_if_nonempty (nth 1 row "")); reflexivity.
  - destruct string_table as [|[|r0 row] rest]; try reflexivity. discriminate.
  - intros r0 row rest ->. rewrite ResourceFacts.parse_system_resources_row.
    split; [| split].
    + intros c u t -> -> ->. reflexivity.
    + intros [-> | [Hu | Ht]]; [reflexivity | |].
      * destruct (if truthy r0 then parse_float r0 else Some 0%float);
          [| reflexivity].
        destruct (int_if_nonempty (nth 0 row "")); [discriminate | reflexivity].
      * destruct (if truthy r0 then parse_float r0 else Some 0%float);
          [| reflexivity].
        destruct (int_if_nonempty (nth 0 row "")); [| reflexivity].
        destruct (int_if_nonempty (nth 1 row "")); [discriminate | reflexivity].
    + intros Hshort r.
      rewrite (nth_overflow row "" (n := 1)) by lia. cbn [int_if_nonempty truthy].
      destruct (if truthy r0 then parse_float r0 else Some 0%float);
        [| discriminate].
      destruct (int_if_nonempty (nth 0 row "")); [| discriminate].
      intros [= <-]. split; reflexivity.
  - intros r. unfold SystemResources.discover_system_resources.
    destruct (Z.ltb_spec 0 (SystemResources.memory_total r)); split;
      (reflexivity || discriminate || lia).
Qed.

Lemma X19_rows_of_the_resource_table :
  SystemResources.parse_system_resources
    (fun s => if String.eqb s "12.5" then Some 12.5%float else None)
    [["12.5"; "1024"; "4096"]]
  = Return (Some (SystemResources.mkResources 12.5 1024 4096))
  /\ SystemResources.parse_system_resources
       (fun s => if String.eqb s "12.5" then Some 12.5%float else None)
       [["12.5"; "1024"; "4 GB"]]
     = Return None
  /\ SystemResources.discover_system_resources
       (Some (SystemResources.mkResources 12.5 1024 0)) = [].
Proof.
  split; [| split].
  - apply (proj1 (proj1 (proj2 (proj2 (X19_system_resources_parse_and_discovery
             (fun s => if String.eqb s "12.5" then Some 12.5%float else None)
             [["12.5"; "1024"; "4096"]])))
             "12.5" ["1024"; "4096"] [] eq_refl));
      reflexivity.
  - apply (proj1 (proj2 (proj1 (proj2 (proj2 (X19_system_resources_parse_and_discovery
             (fun s => if String.eqb s "12.5" then Some 12.5%float else None)
             [["12.5"; "1024"; "4 GB"]])))
             "12.5" ["1024"; "4 GB"] [] eq_refl))).
    right. right. reflexivity.
  - apply (proj2 (proj1 (proj2 (proj2 (X19_system_resources_parse_and_discovery
             (fun s => if String.eqb s "12.5" then Some 12.5%float else None)
             [["12.5"; "1024"]])))
             "12.5" ["1024"] [] eq_refl))
      with (r := SystemResources.mkResources 12.5 1024 0).
    + cbn. lia.
    + reflexivity.
Defined.

(** ** Discovery from a parsed table *)

Lemma services_NoDup (names : list string) :
  NoDup names ->
  NoDup (map (fun name => mkService (Some name) Dict.empty) names).
Proof.
  induction names as [|n names IH]; intros Hnd; [constructor |].
  inversion Hnd as [|? ? Hnotin Hnd']; subst. cbn [map].
  constructor; [| now apply IH].
  rewrite in_map_iff. intros (n' & [= ->] & Hin). contradiction.
Qed.

Lemma key_is_found {V} (section : Dict.t V) name :
  In name (Dict.keys section) -> exists data, Dict.get section name = Some data.
Proof.
  intros Hin. destruct (Dict.get section name) as [data|] eqn:E; [now exists data |].
  apply dict_get_None in E. contradiction.
Qed.

(** X20. From the table to the services: the traffic and the advanced agent
    discovery, run on a section their parser returned, yield every service
    once, and every service names an item of the section that the check
    finds; an interface service never has the empty name. *)
Theorem X20_services_of_a_parsed_section :
  forall (parse_float : string -> option float),
    (forall string_table section,
        SnmpCheck.parse_interface_traffic string_table = Return (Some section) ->
        NoDup (SnmpCheck.discover_interface_traffic section)
        /\ (forall svc, In svc (SnmpCheck.discover_interface_traffic section) ->
              exists name data,
                item svc = Some name /\ truthy name = true
                /\ Dict.get section name = Some data))
    /\ (forall string_table section,
          AgentAdvanced.parse_mycheck parse_float string_table = Return (Some section) ->
          NoDup (AgentAdvanced.discover_mycheck section)
          /\ (forall svc, In svc (AgentAdvanced.discover_mycheck section) ->
                exists name data,
                  item svc = Some name /\ Dict.get section name = Some data)).
Proof.
  intros parse_float. split; intros string_table section Hparse.
  - destruct (KeyFacts.parse_interface_traffic_well_keyed _ Hparse) as [Hnd Hkeys].
    unfold SnmpCheck.discover_interface_traffic. split; [now apply services_NoDup |].
    intros svc Hin. apply in_map_iff in Hin as (name & <- & Hname).
    destruct (key_is_found section name Hname) as [data Hdata].
    exists name, data. split; [reflexivity | split; [| exact Hdata]].
    rewrite Forall_forall in Hkeys. now apply Hkeys.
  - pose proof (KeyFacts.parse_mycheck_keys_NoDup _ _ Hparse) as Hnd.
    unfold AgentAdvanced.discover_mycheck. split; [now apply services_NoDup |].
    intros svc Hin. apply in_map_iff in Hin as (name & <- & Hname).
    destruct (key_is_found section name Hname) as [data Hdata]. now exists name, data.
Qed.

Lemma X20_services_of_a_traffic_table :
  NoDup (SnmpCheck.discover_interface_traffic
           [("eth0", SnmpCheck.mkIfTraffic "3" 50 60);
            ("eth1", SnmpCheck.mkIfTraffic "2" 30 40)]).
Proof.
  apply (proj1 (proj1 (X20_services_of_a_parsed_section (fun _ => None))
                  [["1"; "eth0"; "10"; "20"]; ["2"; "eth1"; "30"; "40"];
                   ["3"; "eth0"; "50"; "60"]]
                  [("eth0", SnmpCheck.mkIfTraffic "3" 50 60);
                   ("eth1", SnmpCheck.mkIfTraffic "2" 30 40)] eq_refl)).
Defined.

(** ** Exceptions that leave the interface check *)

Section RaiseFacts.
Variable VS : Type.
Variable api : Api VS.

Lemma raises_only_ret {A} (P : exn -> Prop) (a : A) : raises_only P (@ret VS A a).
Proof. intros vs e. discriminate. Qed.

Lemma raises_only_yield (P : exn -> Prop) y : raises_only P (@yield VS y).
Proof. intros vs e. discriminate. Qed.

Lemma raises_only_bind {A B} (P : exn -> Prop) (m : Check VS A) (k : A -> Check VS B) :
  raises_only P m -> (forall a, raises_only P (k a)) ->
  raises_only P (a <~ m ;; k a).
Proof.
  intros Hm Hk vs e. unfold Cmk.bind.
  destruct (result (m vs)) as [a|e'] eqn:E; cbn.
  - apply Hk.
  - intros [= <-]. exact (Hm vs e' E).
Qed.

Lemma raises_only_lift {A} (P : exn -> Prop) (o : outcome A) :
  (forall e, o = Raise e -> P e) -> raises_only P (@lift VS A o).
Proof. intros Ho vs e. cbn. apply Ho. Qed.

Lemma raises_only_yield_from (P : exn -> Prop) call :
  (forall e, library_raises api e -> P e) ->
  raises_only P (yield_from (VS := VS) (check_levels api call)).
Proof.
  intros HP vs e. cbn. intros He. apply HP. right. now exists call.
Qed.

Lemma raises_only_rate (P : exn -> Prop) key now value :
  (forall e, library_raises api e -> P e) ->
  raises_only P (rate api key now value).
Proof.
  intros HP vs e. unfold rate.
  destruct (get_rate api vs key now value) as [vs' r] eqn:E. cbn.
  intros ->. apply HP. left. exists vs, key, now, value. now rewrite E.
Qed.

(** [except GetRateError] lets the other exceptions of the body through and
    adds those of the handler. *)
Lemma raises_only_except {A} (P Q : exn -> Prop) (body handler : Check VS A) :
  raises_only Q body ->
  (forall e, Q e -> e <> GetRateError -> P e) ->
  raises_only P handler ->
  raises_only P (except_GetRateError body handler).
Proof.
  intros Hbody HQ Hhandler vs e. unfold except_GetRateError.
  destruct (result (body vs)) as [a|e'] eqn:E.
  - rewrite E. discriminate.
  - destruct e'; try (rewrite E; intros [= <-];
                      apply HQ; [exact (Hbody vs _ E) | discriminate]).
    cbn. apply Hhandler.
Qed.

Lemma div_int_raises x z e :
  0 < z -> div_int x z = Raise e -> e = OverflowError.
Proof.
  intros Hz. unfold div_int, float_of_int.
  destruct (z =? 0) eqn:E; [apply Z.eqb_eq in E; lia |].
  destruct (is_infinity (SF2Prim (binary_normalize prec emax z 0 false))); cbn;
    [now intros [= <-] | discriminate].
Qed.

Lemma status_check_raises_nothing params interface :
  raises_only (fun _ => False) (MultiTable.status_check (VS := VS) params interface).
Proof.
  intros vs e. destruct (status_check_run params interface vs) as [y ->].
  discriminate.
Qed.

Lemma speed_check_raises_nothing params interface :
  raises_only (fun _ => False) (MultiTable.speed_check api params interface).
Proof.
  intros vs e. destruct (speed_check_run api params interface vs) as [ys ->].
  discriminate.
Qed.

Lemma raises_only_weaken {A} (P Q : exn -> Prop) (m : Check VS A) :
  (forall e, P e -> Q e) -> raises_only P m -> raises_only Q m.
Proof. intros HPQ Hm vs e He. apply HPQ. exact (Hm vs e He). Qed.

Lemma traffic_rates_raises item params interface now :
  raises_only
    (fun e => e = OverflowError \/ (e <> GetRateError /\ library_raises api e))
    (MultiTable.traffic_rates api item params interface now).
Proof.
  unfold MultiTable.traffic_rates.
  apply raises_only_except
    with (Q := fun e => e = OverflowError \/ library_raises api e).
  - apply raises_only_bind; [apply raises_only_rate; now right |]. intros in_rate.
    apply raises_only_bind; [apply raises_only_rate; now right |]. intros out_rate.
    apply raises_only_bind; [apply raises_only_yield |]. intros _.
    apply raises_only_bind; [apply raises_only_yield |]. intros _.
    apply raises_only_bind; [apply raises_only_yield |]. intros _.
    destruct (0 <? MultiTable.speed interface) eqn:Hspeed; [| apply raises_only_ret].
    apply Z.ltb_lt in Hspeed.
    apply raises_only_bind;
      [apply raises_only_lift; intros e He; left;
       exact (div_int_raises _ Hspeed He) |]. intros in_q.
    apply raises_only_bind;
      [apply raises_only_lift; intros e He; left;
       exact (div_int_raises _ Hspeed He) |]. intros out_q.
    apply raises_only_yield_from. now right.
  - intros e [-> | Hlib] Hne; [now left | right; now split].
  - apply raises_only_yield.
Qed.

Lemma error_rates_raises item params interface now :
  raises_only
    (fun e => e = OverflowError \/ (e <> GetRateError /\ library_raises api e))
    (MultiTable.error_rates api item params interface now).
Proof.
  unfold MultiTable.error_rates.
  apply raises_only_except with (Q := library_raises api).
  - apply raises_only_bind; [now apply raises_only_rate |]. intros in_err_rate.
    apply raises_only_bind; [now apply raises_only_rate |]. intros out_err_rate.
    destruct (0 <? in_err_rate + out_err_rate)%float;
      [now apply raises_only_yield_from | apply raises_only_ret].
  - intros e Hlib Hne. right. now split.
  - apply raises_only_ret.
Qed.

End RaiseFacts.

(** X21. An exception that leaves [check_multi_table_interfaces] is an
    [OverflowError] (a speed too large for a float) or an exception that
    [get_rate] or [check_levels] raised; never a [GetRateError], which the
    check contains, and no [ZeroDivisionError] of its own, since it divides
    by the speed only when the speed is positive. *)
Theorem X21_exceptions_of_the_interface_check :
  forall (VS : Type) (api : Api VS) item params section now vs e,
    result (MultiTable.check_multi_table_interfaces api item params section now vs)
    = Raise e ->
    e = OverflowError \/ (e <> GetRateError /\ library_raises api e).
Proof.
  intros VS api item params section now vs e.
  revert vs e.
  change (raises_only
            (fun e => e = OverflowError \/ (e <> GetRateError /\ library_raises api e))
            (MultiTable.check_multi_table_interfaces api item params section now)).
  unfold MultiTable.check_multi_table_interfaces.
  destruct (Dict.get section item) as [interface|]; [| apply raises_only_yield].
  apply raises_only_bind;
    [apply (@raises_only_weaken VS unit (fun _ => False)); [intros e [] |];
     apply status_check_raises_nothing |]. intros _.
  apply raises_only_bind;
    [apply (@raises_only_weaken VS unit (fun _ => False)); [intros e [] |];
     apply speed_check_raises_nothing |]. intros _.
  apply raises_only_bind; [apply traffic_rates_raises |]. intros _.
  apply error_rates_raises.
Qed.

Lemma X21_speed_beyond_the_floats :
  OverflowError = OverflowError
  \/ (OverflowError <> GetRateError
      /\ library_raises
           (mkApi (fun (vs : unit) _ _ _ => (vs, Return 1%float))
              Sample.check_levels Sample.networkbandwidth)
           OverflowError).
Proof.
  apply (@X21_exceptions_of_the_interface_check unit
           (mkApi (fun (vs : unit) _ _ _ => (vs, Return 1%float))
              Sample.check_levels Sample.networkbandwidth)
           "eth0" (MultiTable.mkParams None None None None)
           [("eth0", MultiTable.mkInterfaceData "1" "eth0" "" "" 6 (2 ^ 1024) 1 1 0 0 0 0)]
           100%float tt OverflowError).
  vm_compute. reflexivity.
Defined.
